(** * oidc-react: the AuthContext provider

    A shallow embedding of [src/AuthContext.tsx].  The file follows the
    source top to bottom:

    - [hasCodeInUrl] over a model of the browser's [URLSearchParams];
    - [initUserManager], building the settings of the OIDC client;
    - [AuthProvider]: its asynchronous closures as programs of a small
      free monad whose external calls (the OIDC client library and the
      callbacks passed as props) are answered by an environment, which
      also tells the clock, and its render as a function of props,
      state, [localStorage] and the clock.

    The OIDC client library, [URLSearchParams], [JSON.parse] and
    [localStorage] are not part of the repository; what the source relies
    on is modelled here and marked as such. *)

From Stdlib Require Import String Ascii List ZArith QArith Bool Lia.
From stdpp Require Import base option gmap strings.
Import ListNotations.

Local Open Scope string_scope.
Local Open Scope list_scope.

(** ** JavaScript strings and truthiness *)

Module Js.

(** A value of type [string | null]; [None] is [null]. *)
Definition nullable := option string.

(** ToBoolean on [string | null]: only a non-empty string is truthy. *)
Definition truthy (v : nullable) : bool :=
  match v with
  | Some (String _ _) => true
  | Some EmptyString => false
  | None => false
  end.

(** [a || b] on [string | null]: the left operand when it is truthy. *)
Definition or (a b : nullable) : nullable :=
  if truthy a then a else b.

Definition Boolean (v : nullable) : bool := truthy v.

(** ToBoolean on [string | undefined], as used by [x || 'default']. *)
Definition or_default (a : option string) (d : string) : string :=
  match a with
  | Some (String c s) => String c s
  | _ => d
  end.

Fixpoint is_prefix (p s : string) : bool :=
  match p, s with
  | EmptyString, _ => true
  | String a p', String b s' => Ascii.eqb a b && is_prefix p' s'
  | String _ _, EmptyString => false
  end.

Fixpoint drop (n : nat) (s : string) : string :=
  match n, s with
  | O, _ => s
  | S n', String _ s' => drop n' s'
  | S _, EmptyString => EmptyString
  end.

(** [s.replace(pat, rep)] with a string pattern: only the first
    occurrence is replaced.  [rep] is taken literally (the source's
    replacement ['?'] has no [$] pattern). *)
Fixpoint replace (pat rep s : string) : string :=
  if is_prefix pat s then rep +:+ drop (String.length pat) s
  else match s with
       | EmptyString => EmptyString
       | String c s' => String c (replace pat rep s')
       end.

(** The double quote, U+0022. *)
Definition quote : ascii :=
  Ascii false true false false false true false false.

(** [s] between double quotes. *)
Definition quoted (s : string) : string :=
  String quote (s +:+ String quote EmptyString).

(** Template-literal interpolation of a [string | undefined]. *)
Definition interpolate (v : option string) : string :=
  match v with
  | Some s => s
  | None => "undefined"
  end.

End Js.

(** ** URLSearchParams

    Modelled from the WHATWG URL standard (the class is a browser
    built-in): the [application/x-www-form-urlencoded] parser over the
    UTF-8 bytes of the input.  Names and values are kept as byte strings;
    the standard's final UTF-8 decoding is the identity on well-formed
    input and changes neither equality with an ASCII name nor
    emptiness. *)

Module URLSearchParams.

Definition t := list (string * string).

(** Splitting on a separator byte, keeping empty pieces. *)
Fixpoint split_on (sep : ascii) (s : string) : list string :=
  match s with
  | EmptyString => [EmptyString]
  | String c s' =>
      if Ascii.eqb c sep then EmptyString :: split_on sep s'
      else match split_on sep s' with
           | [] => [String c EmptyString]
           | h :: t => String c h :: t
           end
  end.

(** The part before the first [sep] and, when there is one, the part
    after it. *)
Fixpoint cut_at (sep : ascii) (s : string) : string * option string :=
  match s with
  | EmptyString => (EmptyString, None)
  | String c s' =>
      if Ascii.eqb c sep then (EmptyString, Some s')
      else let '(n, v) := cut_at sep s' in (String c n, v)
  end.

Fixpoint plus_to_space (s : string) : string :=
  match s with
  | EmptyString => EmptyString
  | String c s' =>
      String (if Ascii.eqb c "+" then " "%char else c) (plus_to_space s')
  end.

Definition hex_value (c : ascii) : option N :=
  let n := N_of_ascii c in
  if (48 <=? n)%N && (n <=? 57)%N then Some (n - 48)%N
  else if (65 <=? n)%N && (n <=? 70)%N then Some (n - 55)%N
  else if (97 <=? n)%N && (n <=? 102)%N then Some (n - 87)%N
  else None.

(** Percent-decoding: [%XY] with two hex digits is one byte; any other
    [%] stands for itself. *)
Fixpoint percent_decode (s : string) : string :=
  match s with
  | EmptyString => EmptyString
  | String c s' =>
      if Ascii.eqb c "%" then
        match s' with
        | String h (String l rest) =>
            match hex_value h, hex_value l with
            | Some x, Some y =>
                String (ascii_of_N (16 * x + y)) (percent_decode rest)
            | _, _ => String c (percent_decode s')
            end
        | _ => String c (percent_decode s')
        end
      else String c (percent_decode s')
  end.

Definition decode (s : string) : string :=
  percent_decode (plus_to_space s).

Definition parse_sequence (seq : string) : t :=
  match seq with
  | EmptyString => []
  | String _ _ =>
      let '(n, v) := cut_at "=" seq in
      [(decode n, decode (default EmptyString v))]
  end.

Definition parse (input : string) : t :=
  flat_map parse_sequence (split_on "&" input).

(** [new URLSearchParams(init)]: one leading [?] is dropped. *)
Definition new (init : string) : t :=
  match init with
  | String "?" rest => parse rest
  | _ => parse init
  end.

(** [params.get(name)]: the value of the first pair named [name]. *)
Fixpoint get (name : string) (ps : t) : Js.nullable :=
  match ps with
  | [] => None
  | (n, v) :: ps' => if String.eqb n name then Some v else get name ps'
  end.

End URLSearchParams.

(** ** hasCodeInUrl *)

(** Modelled from the spec: the interface [Location] is declared in
    [AuthContextInterface], which is not among the sources.  The record
    has the two members [hasCodeInUrl] reads. *)
Record Location := { search : string; hash : string }.

Definition hasCodeInUrl (location : Location) : bool :=
  let searchParams := URLSearchParams.new (search location) in
  let hashParams :=
    URLSearchParams.new (Js.replace "#" "?" (hash location)) in
  Js.Boolean
    (Js.or (URLSearchParams.get "code" searchParams)
    (Js.or (URLSearchParams.get "id_token" searchParams)
    (Js.or (URLSearchParams.get "session_state" searchParams)
    (Js.or (URLSearchParams.get "code" hashParams)
    (Js.or (URLSearchParams.get "id_token" hashParams)
           (URLSearchParams.get "session_state" hashParams)))))).

(** The two parameter lists [hasCodeInUrl] builds. *)
Definition searchParams (location : Location) : URLSearchParams.t :=
  URLSearchParams.new (search location).

Definition hashParams (location : Location) : URLSearchParams.t :=
  URLSearchParams.new (Js.replace "#" "?" (hash location)).

Definition relevant_parameters : list string :=
  ["code"; "id_token"; "session_state"].

(** Reading of the specification: some pair of the list has this name
    and a non-empty value. *)
Definition appears_nonempty (name : string) (ps : URLSearchParams.t) : Prop :=
  exists v, In (name, v) ps /\ v <> "".

Definition spec_returning_from_redirect (location : Location) : Prop :=
  exists name, In name relevant_parameters /\
    (appears_nonempty name (searchParams location) \/
     appears_nonempty name (hashParams location)).

(** The first pair of this name has a non-empty value. *)
Definition first_nonempty (name : string) (ps : URLSearchParams.t) : Prop :=
  exists before v after,
    ps = before ++ (name, v) :: after /\
    (forall p, In p before -> fst p <> name) /\
    v <> "".

Definition first_values_nonempty (location : Location) : Prop :=
  exists name, In name relevant_parameters /\
    (first_nonempty name (searchParams location) \/
     first_nonempty name (hashParams location)).

(** Whether the byte [c] occurs in [s]. *)
Fixpoint occurs (c : ascii) (s : string) : bool :=
  match s with
  | EmptyString => false
  | String x s' => Ascii.eqb x c || occurs c s'
  end.

(** ** The OIDC client library

    The library ([oidc-client]) is external.  What the source uses of it
    is kept: the [User] object with the members the source reads, the
    settings passed to [new UserManager], and the methods called on a
    manager, which appear below as external calls. *)

Record Profile := {
  name : option string;
  picture : option string;
  email : option string
}.

(** [expired] is a getter of the library, computed from the clock each
    time it is read: the field gives what it returns at each clock (the
    time value of [Date], in milliseconds). *)
Record User := {
  id_token : string;
  access_token : string;
  profile : Profile;
  expired : Z -> bool
}.

(** [!user || user.expired], read at the clock [now]. *)
Definition absent_or_expired (now : Z) (user : option User) : bool :=
  match user with
  | None => true
  | Some u => expired u now
  end.

Record UserManagerSettings := {
  authority : option string;
  client_id : option string;
  client_secret : option string;
  redirect_uri : option string;
  silent_redirect_uri : option string;
  post_logout_redirect_uri : option string;
  response_type : string;
  scope : string;
  loadUserInfo : bool;
  automaticSilentRenew : option bool
}.

(** [new UserManager(settings)]. *)
Record UserManager := new_UserManager { settings : UserManagerSettings }.

(** A function passed as a prop, known to the provider by reference
    only. *)
Record Callback := { callback_ref : nat }.

(** The [unknown] argument of [login] and [signOutRedirect]; the provider
    hands it on without looking at it. *)
Definition Args := string.

(** ** Props *)

(** Modelled from the spec: the interface [AuthProviderProps] is declared
    in [AuthContextInterface], which is not among the sources.  The
    record has the props [AuthProvider] and [initUserManager] take apart,
    each optional ([None] is [undefined]); [children] plays no part. *)
Module AuthProviderProps.

Record t := {
  authority : option string;
  clientId : option string;
  clientSecret : option string;
  redirectUri : option string;
  responseType : option string;
  scope : option string;
  automaticSilentRenew : option bool;
  userManager : option UserManager;
  autoSignIn : option bool;
  onBeforeSignIn : option Callback;
  onSignIn : option Callback;
  onSignOut : option Callback;
  location : option Location
}.

End AuthProviderProps.

Abbreviation AuthProviderProps := AuthProviderProps.t.

(** ** initUserManager *)

Definition initUserManager (props : AuthProviderProps) : UserManager :=
  match AuthProviderProps.userManager props with
  | Some um => um
  | None =>
      new_UserManager
        {| authority := AuthProviderProps.authority props;
           client_id := AuthProviderProps.clientId props;
           client_secret := AuthProviderProps.clientSecret props;
           redirect_uri := AuthProviderProps.redirectUri props;
           silent_redirect_uri := AuthProviderProps.redirectUri props;
           post_logout_redirect_uri := AuthProviderProps.redirectUri props;
           response_type :=
             Js.or_default (AuthProviderProps.responseType props) "code";
           scope := Js.or_default (AuthProviderProps.scope props) "openid";
           loadUserInfo := true;
           automaticSilentRenew :=
             AuthProviderProps.automaticSilentRenew props |}
  end.

(** ** Asynchronous code as programs

    The closures of [AuthProvider] call out to the library and to the
    callbacks, and set the component's [userData] state.  They are written
    as programs over these operations and run against an environment that
    answers every external call, by a value or by an exception.  Each
    asynchronous function is run on its own from its first step to its
    last; how React interleaves several of them is outside the model. *)

(** The event handler the provider registers, as a closure: its code and
    the manager it captured. *)
Inductive Handler := updateUserData_closure (um : UserManager).

Inductive ExtCall :=
| SigninCallback (um : UserManager)
| GetUser (um : UserManager)
| SigninRedirect (um : UserManager) (args : option Args)
| RemoveUser (um : UserManager)
| SignoutRedirect (um : UserManager) (args : option Args)
| AddUserLoaded (um : UserManager) (h : Handler)
| RemoveUserLoaded (um : UserManager) (h : Handler)
| Invoke (f : Callback)
| InvokeWith (f : Callback) (user : User).

(** What a call gives back when it completes. *)
Definition Resp (c : ExtCall) : Type :=
  match c with
  | SigninCallback _ => User
  | GetUser _ => option User
  | _ => unit
  end.

Inductive JsError := Error (message : string).

Inductive Prog (A : Type) : Type :=
| Ret (a : A)
| SetUserData (u : option User) (k : Prog A)
| Call (c : ExtCall) (k : Resp c -> Prog A)
| Detach (c : ExtCall) (k : Prog A)
| Expired (u : User) (k : bool -> Prog A).

Arguments Ret {A} a.
Arguments SetUserData {A} u k.
Arguments Call {A} c k.
Arguments Detach {A} c k.
Arguments Expired {A} u k.

Fixpoint bind {A B} (p : Prog A) (f : A -> Prog B) : Prog B :=
  match p with
  | Ret a => f a
  | SetUserData u k => SetUserData u (bind k f)
  | Call c k => Call c (fun r => bind (k r) f)
  | Detach c k => Detach c (bind k f)
  | Expired u k => Expired u (fun b => bind (k b) f)
  end.

(** [await e] and plain calls [e()]: the program goes on with the result;
    an exception or a rejection ends it. *)
Definition await (c : ExtCall) : Prog (Resp c) := Call c Ret.

(** A call whose promise is dropped: the program goes on at once and a
    later rejection never reaches it. *)
Definition detached (c : ExtCall) : Prog unit := Detach c (Ret tt).

Definition setUserData (u : option User) : Prog unit :=
  SetUserData u (Ret tt).

Declare Scope prog_scope.
Delimit Scope prog_scope with prog.
Notation "x <- p ;; q" := (bind p (fun x => q))
  (at level 20, p at level 99, q at level 200, only parsing) : prog_scope.
Notation "p ;; q" := (bind p (fun _ => q))
  (at level 100, q at level 200, only parsing, right associativity)
  : prog_scope.
Local Open Scope prog_scope.

(** [!user || user.expired]: the getter is read when there is a
    user. *)
Definition read_absent_or_expired (user : option User) : Prog bool :=
  match user with
  | None => Ret true
  | Some u => Expired u Ret
  end.

(** [f && f()] and [f && f(user)] for an optional callback. *)
Definition and_call (f : option Callback) : Prog unit :=
  match f with
  | Some g => await (Invoke g)
  | None => Ret tt
  end.

Definition and_call_with (f : option Callback) (user : User) : Prog unit :=
  match f with
  | Some g => await (InvokeWith g user)
  | None => Ret tt
  end.

(** One entry of the history: a state update or an external call made. *)
Inductive Step :=
| Set_userData (u : option User)
| Called (c : ExtCall).

(** The environment answers a call from the history so far, and tells
    the clock at each point of the history. *)
Record Env := {
  respond : list Step -> forall c : ExtCall, JsError + Resp c;
  clock : list Step -> Z
}.

Inductive Outcome (A : Type) : Type :=
| Resolved (a : A)
| Rejected (e : JsError).

Arguments Resolved {A} a.
Arguments Rejected {A} e.

(** The component's state is the [userData] of [useState]. *)
Definition State := option User.

Record Run (A : Type) := {
  outcome : Outcome A;
  state : State;
  history : list Step
}.

Arguments outcome {A} r.
Arguments state {A} r.
Arguments history {A} r.

Fixpoint run {A} (env : Env) (p : Prog A) (st : State) (log : list Step)
  : Run A :=
  match p with
  | Ret a => {| outcome := Resolved a; state := st; history := log |}
  | SetUserData u k => run env k u (log ++ [Set_userData u])
  | Call c k =>
      match respond env log c with
      | inr r => run env (k r) st (log ++ [Called c])
      | inl e =>
          {| outcome := Rejected e; state := st;
             history := log ++ [Called c] |}
      end
  | Detach c k => run env k st (log ++ [Called c])
  | Expired u k => run env (k (expired u (clock env log))) st log
  end.

(** ** AuthProvider: the closures

    [window_location] is [window.location], the default of the
    [location] prop; [autoSignIn] defaults to [true]. *)

Section AuthProvider.

Variable props : AuthProviderProps.
Variable window_location : Location.

Definition autoSignIn : bool :=
  default true (AuthProviderProps.autoSignIn props).

Definition location : Location :=
  default window_location (AuthProviderProps.location props).

Definition userManager : UserManager := initUserManager props.

Definition signOutHooks : Prog unit :=
  setUserData None ;;
  and_call (AuthProviderProps.onSignOut props).

(** The body of the first effect, run on mount and when [location]
    changes. *)
Definition getUser : Prog unit :=
  if hasCodeInUrl location then
    user <- await (SigninCallback userManager) ;;
    setUserData (Some user) ;;
    and_call_with (AuthProviderProps.onSignIn props) user ;;
    Ret tt
  else
    user <- await (GetUser userManager) ;;
    stale <- read_absent_or_expired user ;;
    if stale && autoSignIn then
      and_call (AuthProviderProps.onBeforeSignIn props) ;;
      detached (SigninRedirect userManager None)
    else
      setUserData user.

(** The handler of the second effect. *)
Definition updateUserData (um : UserManager) : Prog unit :=
  user <- await (GetUser um) ;;
  setUserData user.

(** The second effect, run on mount only: it subscribes and gives back
    its cleanup, which React runs on unmount. *)
Definition userLoadedEffect : Prog (Prog unit) :=
  let updateUserData := updateUserData_closure userManager in
  await (AddUserLoaded userManager updateUserData) ;;
  Ret (await (RemoveUserLoaded userManager updateUserData)).

Definition login (args : option Args) : Prog unit :=
  await (SigninRedirect userManager args).

Definition logout : Prog unit :=
  await (RemoveUser userManager) ;;
  signOutHooks.

Definition signOutRedirect (args : option Args) : Prog unit :=
  await (SignoutRedirect userManager args) ;;
  signOutHooks.

End AuthProvider.

(** What a registered handler does when the library calls it. *)
Definition Handler_body (h : Handler) : Prog unit :=
  match h with
  | updateUserData_closure um => updateUserData um
  end.

(** ** Numbers

    An ECMAScript number is a binary64 double: a rational or one of the
    three special values.  [Binary64.round] gives the double nearest to
    a rational, ties to even, as the conversion of a decimal literal and
    the division of two numbers do. *)

Inductive number :=
| NaN
| NegInfinity
| PosInfinity
| Finite (q : Q).

Definition Qltb (x y : Q) : bool :=
  match (x ?= y)%Q with
  | Lt => true
  | _ => false
  end.

(** [x < y] on numbers: false as soon as one of them is [NaN]. *)
Definition number_lt (x y : number) : bool :=
  match x, y with
  | NaN, _ => false
  | _, NaN => false
  | NegInfinity, NegInfinity => false
  | NegInfinity, _ => true
  | PosInfinity, _ => false
  | Finite _, NegInfinity => false
  | Finite _, PosInfinity => true
  | Finite p, Finite q => Qltb p q
  end.

Module Binary64.

(** The integer nearest to [a / b], the even one of two at equal
    distance; [0 <= a] and [0 < b]. *)
Definition nearest_even (a b : Z) : Z :=
  let k := (a / b)%Z in
  match (2 * (a mod b) ?= b)%Z with
  | Lt => k
  | Gt => (k + 1)%Z
  | Eq => if Z.even k then k else (k + 1)%Z
  end.

(** The double nearest to [n / d].  With [e] the binary exponent of the
    quotient, the last place is [2 ^ p] for [p] the larger of [e - 52]
    and [-1074]; the result is [m * 2 ^ p] for the nearest integer [m],
    or infinity from [2 ^ 1024] on. *)
Definition round_pos (n d : positive) : number :=
  let e0 := (Z.log2 (Zpos n) - Z.log2 (Zpos d))%Z in
  let e :=
    if (Zpos n * 2 ^ Z.max 0 (- e0) <? Zpos d * 2 ^ Z.max 0 e0)%Z
    then (e0 - 1)%Z else e0 in
  let p := Z.max (e - 52) (-1074) in
  let m :=
    nearest_even (Zpos n * 2 ^ Z.max 0 (- p)) (Zpos d * 2 ^ Z.max 0 p) in
  if ((971 <? p) || ((p =? 971) && (2 ^ 53 <=? m)))%Z then PosInfinity
  else Finite (if (0 <=? p)%Z then inject_Z (m * 2 ^ p)
               else m # Z.to_pos (2 ^ (- p))).

Definition opposite (x : number) : number :=
  match x with
  | NaN => NaN
  | NegInfinity => PosInfinity
  | PosInfinity => NegInfinity
  | Finite q => Finite (- q)
  end.

Definition round (q : Q) : number :=
  match Qnum q with
  | Z0 => Finite 0
  | Zpos n => round_pos n (Qden q)
  | Zneg n => opposite (round_pos n (Qden q))
  end.

End Binary64.

(** [n / d >= 2 ^ k], without fractions. *)
Definition at_least_pow2 (n d : positive) (k : Z) : Prop :=
  (Zpos d * 2 ^ Z.max 0 k <= Zpos n * 2 ^ Z.max 0 (- k))%Z.

(** ** JSON values and JSON.parse

    [JSON.parse] is an ECMAScript built-in.  [JSON.value] is what it
    returns; an object keeps its members in source order, and a later
    member of the same name overrides an earlier one. *)

Module JSON.

#[local] Unset Elimination Schemes.

Inductive value :=
| Null
| Bool (b : bool)
| Number (x : number)
| Str (s : string)
| Array (items : list value)
| Object (members : list (string * value)).

#[local] Set Elimination Schemes.

(** The own property [key] of a parsed object. *)
Fixpoint member (key : string) (ms : list (string * value))
  : option value :=
  match ms with
  | [] => None
  | (k, v) :: ms' =>
      match member key ms' with
      | Some v' => Some v'
      | None => if String.eqb k key then Some v else None
      end
  end.

(** *** A reference parser (ECMA-404 grammar)

    Used to evaluate the provider on concrete storage contents. *)

Definition is_ws (c : ascii) : bool :=
  let n := N_of_ascii c in
  (n =? 32)%N || (n =? 9)%N || (n =? 10)%N || (n =? 13)%N.

Fixpoint skip_ws (s : string) : string :=
  match s with
  | String c s' => if is_ws c then skip_ws s' else s
  | EmptyString => s
  end.

Definition digit_value (c : ascii) : option Z :=
  let n := N_of_ascii c in
  if (48 <=? n)%N && (n <=? 57)%N then Some (Z.of_N (n - 48)) else None.

(** Reads a run of decimal digits: their value on top of [acc], how
    many there were, and the rest. *)
Fixpoint digits (acc : Z) (count : nat) (s : string) : Z * nat * string :=
  match s with
  | String c s' =>
      match digit_value c with
      | Some d => digits (10 * acc + d) (S count) s'
      | None => (acc, count, s)
      end
  | EmptyString => (acc, count, s)
  end.

Definition scale (q : Q) (e : Z) : Q :=
  match e with
  | Z0 => q
  | Zpos p => (q * inject_Z (10 ^ Zpos p))%Q
  | Zneg p => (q / inject_Z (10 ^ Zpos p))%Q
  end.

Definition parse_exponent (s : string) : option (Z * string) :=
  match s with
  | String c s' =>
      if Ascii.eqb c "e" || Ascii.eqb c "E" then
        let '(neg, s'') :=
          match s' with
          | String "-" r => (true, r)
          | String "+" r => (false, r)
          | _ => (false, s')
          end in
        match digits 0 0 s'' with
        | (_, O, _) => None
        | (e, S _, rest) => Some (if neg then (- e)%Z else e, rest)
        end
      else Some (0%Z, s)
  | EmptyString => Some (0%Z, s)
  end.

Definition parse_fraction (s : string) : option (Z * nat * string) :=
  match s with
  | String "." s' =>
      match digits 0 0 s' with
      | (_, O, _) => None
      | (f, S n, rest) => Some (f, S n, rest)
      end
  | _ => Some (0%Z, O, s)
  end.

Definition parse_number (s : string) : option (number * string) :=
  let '(neg, s1) :=
    match s with
    | String "-" r => (true, r)
    | _ => (false, s)
    end in
  match s1 with
  | String c _ =>
      match digits 0 0 s1 with
      | (_, O, _) => None
      | (i, S n, s2) =>
          if Ascii.eqb c "0" && negb (Nat.eqb n 0) then None
          else
            match parse_fraction s2 with
            | None => None
            | Some (f, fd, s3) =>
                match parse_exponent s3 with
                | None => None
                | Some (e, s4) =>
                    let m := (i * 10 ^ Z.of_nat fd + f)%Z in
                    let q := scale (inject_Z m) (e - Z.of_nat fd) in
                    Some (Binary64.round (if neg then (- q)%Q else q), s4)
                end
            end
      end
  | EmptyString => None
  end.

Definition hex_digit (c : ascii) : option N :=
  URLSearchParams.hex_value c.

Definition hex4 (s : string) : option (N * string) :=
  match s with
  | String a (String b (String c (String d rest))) =>
      match hex_digit a, hex_digit b, hex_digit c, hex_digit d with
      | Some w, Some x, Some y, Some z =>
          Some (((w * 16 + x) * 16 + y) * 16 + z, rest)%N
      | _, _, _, _ => None
      end
  | _ => None
  end.

(** UTF-8 (generalised to lone surrogates) of a code point. *)
Definition utf8 (cp : N) : string :=
  let b (n : N) := ascii_of_N n in
  (if cp <? 128 then String (b cp) EmptyString
   else if cp <? 2048 then
     String (b (192 + cp / 64)) (String (b (128 + cp mod 64)) EmptyString)
   else if cp <? 65536 then
     String (b (224 + cp / 4096))
       (String (b (128 + (cp / 64) mod 64))
          (String (b (128 + cp mod 64)) EmptyString))
   else
     String (b (240 + cp / 262144))
       (String (b (128 + (cp / 4096) mod 64))
          (String (b (128 + (cp / 64) mod 64))
             (String (b (128 + cp mod 64)) EmptyString))))%N.

Definition is_high (u : N) : bool := (55296 <=? u)%N && (u <=? 56319)%N.
Definition is_low (u : N) : bool := (56320 <=? u)%N && (u <=? 57343)%N.

(** The characters of a string literal after its opening quote. *)
Fixpoint parse_chars (fuel : nat) (s : string) : option (string * string) :=
  match fuel with
  | O => None
  | S fuel' =>
      match s with
      | EmptyString => None
      | String c s' =>
          if Ascii.eqb c Js.quote then Some (EmptyString, s')
          else if Ascii.eqb c "\" then
            match s' with
            | String e r =>
                let simple (x : ascii) :=
                  match parse_chars fuel' r with
                  | Some (t, rest) => Some (String x t, rest)
                  | None => None
                  end in
                if Ascii.eqb e Js.quote then simple Js.quote
                else if Ascii.eqb e "\" then simple "\"%char
                else if Ascii.eqb e "/" then simple "/"%char
                else if Ascii.eqb e "b" then simple (ascii_of_N 8)
                else if Ascii.eqb e "f" then simple (ascii_of_N 12)
                else if Ascii.eqb e "n" then simple (ascii_of_N 10)
                else if Ascii.eqb e "r" then simple (ascii_of_N 13)
                else if Ascii.eqb e "t" then simple (ascii_of_N 9)
                else if Ascii.eqb e "u" then
                  match hex4 r with
                  | None => None
                  | Some (u, r1) =>
                      let lone :=
                        match parse_chars fuel' r1 with
                        | Some (t, rest) => Some (utf8 u +:+ t, rest)
                        | None => None
                        end in
                      if is_high u then
                        match r1 with
                        | String "\" (String "u" r2) =>
                            match hex4 r2 with
                            | Some (l, r3) =>
                                if is_low l then
                                  let cp :=
                                    (65536 + (u - 55296) * 1024
                                     + (l - 56320))%N in
                                  match parse_chars fuel' r3 with
                                  | Some (t, rest) =>
                                      Some (utf8 cp +:+ t, rest)
                                  | None => None
                                  end
                                else lone
                            | None => lone
                            end
                        | _ => lone
                        end
                      else lone
                  end
                else None
            | EmptyString => None
            end
          else if (N_of_ascii c <? 32)%N then None
          else
            match parse_chars fuel' s' with
            | Some (t, rest) => Some (String c t, rest)
            | None => None
            end
      end
  end.

Definition parse_string (s : string) : option (string * string) :=
  parse_chars (S (String.length s)) s.

(** Values, array elements and object members; [fuel] bounds the
    depth of the recursion and the length of the text is enough. *)
Fixpoint parse_value (fuel : nat) (s : string) : option (value * string) :=
  match fuel with
  | O => None
  | S fuel' =>
      let parse_elements :=
        fix elements (n : nat) (s : string) (acc : list value)
          : option (list value * string) :=
          match n with
          | O => None
          | S n' =>
              match parse_value fuel' s with
              | None => None
              | Some (v, r) =>
                  match skip_ws r with
                  | String "," r' => elements n' r' (acc ++ [v])
                  | String "]" r' => Some (acc ++ [v], r')
                  | _ => None
                  end
              end
          end in
      let parse_members :=
        fix members (n : nat) (s : string) (acc : list (string * value))
          : option (list (string * value) * string) :=
          match n with
          | O => None
          | S n' =>
              match skip_ws s with
              | String c r =>
                  if Ascii.eqb c Js.quote then
                    match parse_string r with
                    | None => None
                    | Some (k, r1) =>
                        match skip_ws r1 with
                        | String ":" r2 =>
                            match parse_value fuel' r2 with
                            | None => None
                            | Some (v, r3) =>
                                match skip_ws r3 with
                                | String "," r4 =>
                                    members n' r4 (acc ++ [(k, v)])
                                | String "}" r4 =>
                                    Some (acc ++ [(k, v)], r4)
                                | _ => None
                                end
                            end
                        | _ => None
                        end
                    end
                  else None
              | EmptyString => None
              end
          end in
      match skip_ws s with
      | String "{" r =>
          match skip_ws r with
          | String "}" r' => Some (Object [], r')
          | _ =>
              match parse_members (String.length r) r [] with
              | Some (ms, r') => Some (Object ms, r')
              | None => None
              end
          end
      | String "[" r =>
          match skip_ws r with
          | String "]" r' => Some (Array [], r')
          | _ =>
              match parse_elements (String.length r) r [] with
              | Some (vs, r') => Some (Array vs, r')
              | None => None
              end
          end
      | s' =>
          if Js.is_prefix (String Js.quote EmptyString) s' then
            match parse_string (Js.drop 1 s') with
            | Some (t, r') => Some (Str t, r')
            | None => None
            end
          else if Js.is_prefix "null" s' then Some (Null, Js.drop 4 s')
          else if Js.is_prefix "true" s' then Some (Bool true, Js.drop 4 s')
          else if Js.is_prefix "false" s' then
            Some (Bool false, Js.drop 5 s')
          else
            match parse_number s' with
            | Some (x, r) => Some (Number x, r)
            | None => None
            end
      end
  end.

(** [JSON.parse(text)]: one value, then nothing but white space;
    anything else is a [SyntaxError]. *)
Definition parse (text : string) : JsError + value :=
  match parse_value (S (String.length text)) text with
  | Some (v, rest) =>
      match skip_ws rest with
      | EmptyString => inr v
      | String _ _ => inl (Error "SyntaxError")
      end
  | None => inl (Error "SyntaxError")
  end.

End JSON.

(** ** AuthProvider: the context value *)

(** Modelled from the spec: the interface [AuthContextProps] is declared
    in [AuthContextInterface], which is not among the sources.  The
    record has the members of the object literal [AuthProvider] passes to
    [AuthContext.Provider]. *)
Module AuthContextProps.

Record user_info := {
  id : option string;
  avatar : option string;
  email : option string;
  name : option string
}.

Record t := {
  login : option Args -> Prog unit;
  logout : Prog unit;
  signOutRedirect : option Args -> Prog unit;
  userManager : UserManager;
  userData : option User;
  user : user_info;
  isAuthenticated : bool;
  method : string
}.

End AuthContextProps.

Abbreviation AuthContextProps := AuthContextProps.t.

(** The browser's [localStorage]: [getItem] is the lookup. *)
Abbreviation Storage := (gmap string string).

Section Render.

(** Built-ins of the engine, taken as parameters: [JSON.parse] (with
    [inl] for a thrown [SyntaxError]), the conversion of a string to a
    number, and [toString] on arrays and objects. *)
Variable JSON_parse : string -> JsError + JSON.value.
Variable StringToNumber : string -> number.
Variable ObjectToString : JSON.value -> string.

(** [j?.expires_at]: [None] is [undefined].  Only a parsed object can
    have such a member. *)
Definition expires_at_of (j : JSON.value) : option JSON.value :=
  match j with
  | JSON.Object ms => JSON.member "expires_at" ms
  | _ => None
  end.

(** ToNumber; arrays and objects go through their string. *)
Definition ToNumber (v : option JSON.value) : number :=
  match v with
  | None => NaN
  | Some JSON.Null => Finite 0
  | Some (JSON.Bool b) => Finite (if b then 1 else 0)
  | Some (JSON.Number x) => x
  | Some (JSON.Str s) => StringToNumber s
  | Some (JSON.Array l) => StringToNumber (ObjectToString (JSON.Array l))
  | Some (JSON.Object l) => StringToNumber (ObjectToString (JSON.Object l))
  end.

(** [v < t] for a number [t]. *)
Definition less_than (v : option JSON.value) (t : number) : bool :=
  number_lt (ToNumber v) t.

(** [now / 1000] for the time value [now], an integer: the double
    nearest to the quotient. *)
Definition seconds (now : Z) : number := Binary64.round (now # 1000).

Variable props : AuthProviderProps.
Variable userData : State.
Variable localStorage : Storage.
(** [new Date().getTime()], in milliseconds. *)
Variable now : Z.

Definition storageKey : string :=
  "oidc.user:" +:+ Js.interpolate (AuthProviderProps.authority props)
  +:+ ":" +:+ Js.interpolate (AuthProviderProps.clientId props).

(** [JSON.parse(localStorage.getItem(key)!)]: a missing item is [null],
    which [JSON.parse] reads as the text ["null"]. *)
Definition storedSession : JsError + JSON.value :=
  JSON_parse (default "null" (localStorage !! storageKey)).

(** [userData?.expired ? false : (... < new Date().getTime() / 1000)];
    the getter is read at the clock of the render. *)
Definition isAuthenticated : JsError + bool :=
  if match userData with
     | Some u => expired u now
     | None => false
     end
  then inr false
  else
    match storedSession with
    | inl e => inl e
    | inr j => inr (less_than (expires_at_of j) (seconds now))
    end.

(** The value handed to [AuthContext.Provider]; the render throws when
    [JSON.parse] does. *)
Definition AuthProvider : JsError + AuthContextProps :=
  match isAuthenticated with
  | inl e => inl e
  | inr b =>
      inr {| AuthContextProps.login := login props;
             AuthContextProps.logout := logout props;
             AuthContextProps.signOutRedirect := signOutRedirect props;
             AuthContextProps.userManager := userManager props;
             AuthContextProps.userData := userData;
             AuthContextProps.user :=
               {| AuthContextProps.id :=
                    u ← userData; name (profile u);
                  AuthContextProps.avatar :=
                    u ← userData; picture (profile u);
                  AuthContextProps.email :=
                    u ← userData; email (profile u);
                  AuthContextProps.name :=
                    u ← userData; name (profile u) |};
             AuthContextProps.isAuthenticated := b;
             AuthContextProps.method := "OIDC" |}
  end.

End Render.

(** The steps an optional callback adds to the history. *)
Definition invoked (f : option Callback) : list Step :=
  match f with
  | Some g => [Called (Invoke g)]
  | None => []
  end.

Definition invoked_with (f : option Callback) (user : User) : list Step :=
  match f with
  | Some g => [Called (InvokeWith g user)]
  | None => []
  end.

(** ** Concrete inputs

    A provider configured by URL and client id, one configured with a
    manager of its own, a user, and environments in which every call
    completes. *)

Module Sample.

Definition onBeforeSignIn : Callback := {| callback_ref := 1 |}.
Definition onSignIn : Callback := {| callback_ref := 2 |}.
Definition onSignOut : Callback := {| callback_ref := 3 |}.

Definition props : AuthProviderProps :=
  {| AuthProviderProps.authority := Some "https://idp.example";
     AuthProviderProps.clientId := Some "app";
     AuthProviderProps.clientSecret := None;
     AuthProviderProps.redirectUri := Some "https://app.example/";
     AuthProviderProps.responseType := None;
     AuthProviderProps.scope := None;
     AuthProviderProps.automaticSilentRenew := Some true;
     AuthProviderProps.userManager := None;
     AuthProviderProps.autoSignIn := None;
     AuthProviderProps.onBeforeSignIn := Some onBeforeSignIn;
     AuthProviderProps.onSignIn := Some onSignIn;
     AuthProviderProps.onSignOut := Some onSignOut;
     AuthProviderProps.location := None |}.

(** The same provider with [autoSignIn] spelled out and no callbacks. *)
Definition props_explicit : AuthProviderProps :=
  {| AuthProviderProps.authority := Some "https://idp.example";
     AuthProviderProps.clientId := Some "app";
     AuthProviderProps.clientSecret := None;
     AuthProviderProps.redirectUri := Some "https://app.example/";
     AuthProviderProps.responseType := None;
     AuthProviderProps.scope := None;
     AuthProviderProps.automaticSilentRenew := Some true;
     AuthProviderProps.userManager := None;
     AuthProviderProps.autoSignIn := Some true;
     AuthProviderProps.onBeforeSignIn := None;
     AuthProviderProps.onSignIn := None;
     AuthProviderProps.onSignOut := None;
     AuthProviderProps.location := None |}.

Definition manager : UserManager :=
  new_UserManager
    {| authority := Some "https://login.example";
       client_id := Some "portal";
       client_secret := None;
       redirect_uri := Some "https://portal.example/callback";
       silent_redirect_uri := Some "https://portal.example/silent";
       post_logout_redirect_uri := None;
       response_type := "id_token";
       scope := "openid profile";
       loadUserInfo := false;
       automaticSilentRenew := None |}.

Definition props_with_manager : AuthProviderProps :=
  {| AuthProviderProps.authority := None;
     AuthProviderProps.clientId := None;
     AuthProviderProps.clientSecret := None;
     AuthProviderProps.redirectUri := None;
     AuthProviderProps.responseType := None;
     AuthProviderProps.scope := None;
     AuthProviderProps.automaticSilentRenew := None;
     AuthProviderProps.userManager := Some manager;
     AuthProviderProps.autoSignIn := Some false;
     AuthProviderProps.onBeforeSignIn := None;
     AuthProviderProps.onSignIn := None;
     AuthProviderProps.onSignOut := None;
     AuthProviderProps.location := None |}.

(** A user whose session runs to 1900000000 s after the epoch, and the
    same user with a session that ran out at 1600000000 s. *)
Definition alice : User :=
  {| id_token := "eyJhbGciOi.e30.c2ln";
     access_token := "2YotnFZFEjr1zCsicMWpAA";
     profile := {| name := Some "Alice";
                   picture := None;
                   email := Some "alice@example.org" |};
     expired := fun now => (1900000000000 <=? now)%Z |}.

Definition stale : User :=
  {| id_token := id_token alice;
     access_token := access_token alice;
     profile := profile alice;
     expired := fun now => (1600000000000 <=? now)%Z |}.

(** Every call completes; the library knows the session [session]; the
    clock stands at 1700000500 s. *)
Definition env (session : option User) : Env :=
  {| clock := fun _ => 1700000500000%Z;
     respond := fun _ c =>
       match c as c0 return JsError + Resp c0 with
       | SigninCallback _ => inr alice
       | GetUser _ => inr session
       | SigninRedirect _ _ => inr tt
       | RemoveUser _ => inr tt
       | SignoutRedirect _ _ => inr tt
       | AddUserLoaded _ _ => inr tt
       | RemoveUserLoaded _ _ => inr tt
       | Invoke _ => inr tt
       | InvokeWith _ _ => inr tt
       end |}.

(** As [env], but every callback throws. *)
Definition env_throwing (session : option User) : Env :=
  {| clock := fun _ => 1700000500000%Z;
     respond := fun log c =>
       match c as c0 return JsError + Resp c0 with
       | Invoke _ => inl (Error "callback failed")
       | InvokeWith _ _ => inl (Error "callback failed")
       | c0 => respond (env session) log c0
       end |}.

(** The identity provider cannot be reached: every call that goes to
    it is rejected; the local ones and the callbacks complete. *)
Definition env_unreachable (session : option User) : Env :=
  {| clock := fun _ => 1700000500000%Z;
     respond := fun log c =>
       match c as c0 return JsError + Resp c0 with
       | SigninCallback _ => inl (Error "Network Error")
       | SigninRedirect _ _ => inl (Error "Network Error")
       | SignoutRedirect _ _ => inl (Error "Network Error")
       | c0 => respond (env session) log c0
       end |}.

(** The session store of the library fails. *)
Definition env_broken_store : Env :=
  {| clock := fun _ => 1700000500000%Z;
     respond := fun log c =>
       match c as c0 return JsError + Resp c0 with
       | GetUser _ => inl (Error "QuotaExceededError")
       | RemoveUser _ => inl (Error "QuotaExceededError")
       | c0 => respond (env None) log c0
       end |}.

Definition home : Location := {| search := ""; hash := "" |}.

(** The identity provider answered the request with an error. *)
Definition denied : Location :=
  {| search := "?error=access_denied&state=af0ifjsldkj"; hash := "" |}.

Definition returning : Location :=
  {| search := "?code=SplxlOBeZQQYbYS6WxSbIA&state=af0ifjsldkj";
     hash := "" |}.

(** [StringToNumber] and [toString] stand-ins for inputs that never
    reach them. *)
Definition no_number (_ : string) : number := NaN.
Definition no_string (_ : JSON.value) : string := "".

Definition storage : Storage :=
  {[ "oidc.user:https://idp.example:app" :=
       "{" +:+ Js.quoted "id_token" +:+ ":"
       +:+ Js.quoted "eyJhbGciOi.e30.c2ln" +:+ ","
       +:+ Js.quoted "expires_at" +:+ ":1700000000}" ]}.


(** A session without [expires_at]. *)
Definition storage_without_expiry : Storage :=
  {[ "oidc.user:https://idp.example:app" :=
       "{" +:+ Js.quoted "id_token" +:+ ":"
       +:+ Js.quoted "eyJhbGciOi.e30.c2ln" +:+ "}" ]}.

(** What is found under the key of a provider given a manager only. *)
Definition storage_undefined_key : Storage :=
  {[ "oidc.user:undefined:undefined" :=
       "{" +:+ Js.quoted "expires_at" +:+ ":null}" ]}.

End Sample.

(** * Properties *)

(** ** Running programs *)

Lemma run_bind {A B} (env : Env) (p : Prog A) (f : A -> Prog B) st log :
  run env (bind p f) st log =
  match outcome (run env p st log) with
  | Resolved a =>
      run env (f a) (state (run env p st log)) (history (run env p st log))
  | Rejected e =>
      {| outcome := Rejected e;
         state := state (run env p st log);
         history := history (run env p st log) |}
  end.
Proof.
  revert st log.
  induction p as [a | u k IH | c k IH | c k IH | u k IH];
    intros st log; simpl.
  - reflexivity.
  - apply IH.
  - destruct (respond env log c) as [e | r]; simpl; [reflexivity | apply IH].
  - apply IH.
  - apply IH.
Qed.

(** Runs a program as far as the answers of the environment are
    known. *)
Ltac run_cbn :=
  cbn [run bind await detached setUserData and_call and_call_with
       read_absent_or_expired outcome state history].

(** A run only ever extends the history. *)
Lemma run_history_extends {A} (env : Env) (p : Prog A) st log :
  exists steps, history (run env p st log) = log ++ steps.
Proof.
  revert st log.
  induction p as [a | u k IH | c k IH | c k IH | u k IH];
    intros st log; simpl.
  - exists []. now rewrite app_nil_r.
  - destruct (IH u (log ++ [Set_userData u])) as [steps ->].
    exists (Set_userData u :: steps). now rewrite <- app_assoc.
  - destruct (respond env log c) as [e | r]; simpl.
    + now exists [Called c].
    + destruct (IH r st (log ++ [Called c])) as [steps ->].
      exists (Called c :: steps). now rewrite <- app_assoc.
  - destruct (IH st (log ++ [Called c])) as [steps ->].
    exists (Called c :: steps). now rewrite <- app_assoc.
  - apply IH.
Qed.

Lemma run_and_call env f st log :
  state (run env (and_call f) st log) = st /\
  history (run env (and_call f) st log) = log ++ invoked f.
Proof.
  destruct f as [g |]; simpl.
  - destruct (respond env log (Invoke g)); simpl; auto.
  - now rewrite app_nil_r.
Qed.

Lemma run_and_call_with env f user st log :
  state (run env (and_call_with f user) st log) = st /\
  history (run env (and_call_with f user) st log) = log ++ invoked_with f user.
Proof.
  destruct f as [g |]; simpl.
  - destruct (respond env log (InvokeWith g user)); simpl; auto.
  - now rewrite app_nil_r.
Qed.

(** [signOutHooks] clears the state first, whatever the callback does. *)
Lemma run_signOutHooks props env st log :
  state (run env (signOutHooks props) st log) = None /\
  history (run env (signOutHooks props) st log) =
    log ++ Set_userData None :: invoked (AuthProviderProps.onSignOut props).
Proof.
  unfold signOutHooks. simpl.
  destruct (run_and_call env (AuthProviderProps.onSignOut props) None
              (log ++ [Set_userData None])) as [Hs Hh].
  rewrite Hs, Hh, <- app_assoc. auto.
Qed.

(** ** The context value *)

Section ContextValue.

Variable JSON_parse : string -> JsError + JSON.value.
Variable StringToNumber : string -> number.
Variable ObjectToString : JSON.value -> string.

Lemma AuthProvider_fields props userData localStorage now ctx :
  AuthProvider JSON_parse StringToNumber ObjectToString
    props userData localStorage now = inr ctx ->
  AuthContextProps.login ctx = login props /\
  AuthContextProps.logout ctx = logout props /\
  AuthContextProps.signOutRedirect ctx = signOutRedirect props /\
  AuthContextProps.userManager ctx = userManager props /\
  AuthContextProps.userData ctx = userData /\
  AuthContextProps.method ctx = "OIDC" /\
  isAuthenticated JSON_parse StringToNumber ObjectToString
    props userData localStorage now
  = inr (AuthContextProps.isAuthenticated ctx).
Proof.
  unfold AuthProvider.
  destruct (isAuthenticated _ _ _ _ _ _ _) as [e | b]; [discriminate |].
  intros [= <-]. simpl. repeat split; reflexivity.
Qed.

End ContextValue.

(** ** initUserManager *)

(** C9: [initUserManager] gives back the manager of the props when there
    is one; otherwise it builds a new manager whose response type is
    ["code"] and whose scope is ["openid"] when the props leave them out,
    with [loadUserInfo] on and the one [redirectUri] as redirect, silent
    redirect and post-logout redirect URI. *)
Theorem initUserManager_spec (props : AuthProviderProps) :
  (forall um, AuthProviderProps.userManager props = Some um ->
              initUserManager props = um) /\
  (AuthProviderProps.userManager props = None ->
   exists s, initUserManager props = new_UserManager s /\
     (AuthProviderProps.responseType props = None ->
      response_type s = "code") /\
     (AuthProviderProps.scope props = None -> scope s = "openid") /\
     loadUserInfo s = true /\
     redirect_uri s = AuthProviderProps.redirectUri props /\
     silent_redirect_uri s = AuthProviderProps.redirectUri props /\
     post_logout_redirect_uri s = AuthProviderProps.redirectUri props).
Proof.
  unfold initUserManager. split.
  - intros um ->. reflexivity.
  - intros ->. eexists. split; [reflexivity |]. simpl.
    repeat split; intros ->; reflexivity.
Qed.

Lemma initUserManager_spec_witness :
  initUserManager Sample.props_with_manager = Sample.manager /\
  response_type (settings (initUserManager Sample.props)) = "code" /\
  scope (settings (initUserManager Sample.props)) = "openid".
Proof.
  split.
  - apply (initUserManager_spec Sample.props_with_manager). reflexivity.
  - destruct (initUserManager_spec Sample.props) as [_ H].
    destruct H as (s & -> & Hr & Hs & _); [reflexivity |].
    split; [apply Hr | apply Hs]; reflexivity.
Defined.

(** ** login, logout and signOutRedirect *)

(** C5: the [login] of the context value makes one external call,
    [signinRedirect(args)] on the provider's manager, settles as that
    call does, and leaves [userData] as it was. *)
Theorem login_delegates
    JSON_parse StringToNumber ObjectToString
    props userData localStorage now ctx
    (env : Env) (st : State) (log : list Step) (args : option Args) :
  AuthProvider JSON_parse StringToNumber ObjectToString
    props userData localStorage now = inr ctx ->
  let r := run env (AuthContextProps.login ctx args) st log in
  history r = log ++ [Called (SigninRedirect (userManager props) args)] /\
  state r = st /\
  outcome r =
    match respond env log (SigninRedirect (userManager props) args) with
    | inr _ => Resolved tt
    | inl e => Rejected e
    end.
Proof.
  intros Hctx.
  destruct (AuthProvider_fields _ _ _ _ _ _ _ _ Hctx) as (-> & _).
  unfold login. simpl.
  destruct (respond env log (SigninRedirect (userManager props) args))
    as [e | []]; simpl; auto.
Qed.

Lemma login_delegates_witness :
  exists ctx,
    AuthProvider JSON.parse Sample.no_number Sample.no_string
      Sample.props (Some Sample.alice) Sample.storage 1700000500000
    = inr ctx /\
    let r := run (Sample.env None) (AuthContextProps.login ctx (Some "prompt"))
               (Some Sample.alice) [] in
    history r =
      [Called (SigninRedirect (userManager Sample.props) (Some "prompt"))] /\
    state r = Some Sample.alice /\
    outcome r = Resolved tt.
Proof.
  eexists. split; [vm_compute; reflexivity |].
  apply (login_delegates JSON.parse Sample.no_number Sample.no_string
           Sample.props (Some Sample.alice) Sample.storage 1700000500000
           _ (Sample.env None) (Some Sample.alice) [] (Some "prompt")).
  vm_compute. reflexivity.
Defined.

(** C6: when the [logout] or the [signOutRedirect] of the context value
    resolves, [userData] is [null] and the history is, in this order: the
    manager's call ([removeUser], or [signoutRedirect(args)]), which
    completed; the clearing of [userData]; one call of [onSignOut] when
    the props have it. *)
Theorem signOut_sequence
    JSON_parse StringToNumber ObjectToString
    props userData localStorage now ctx
    (env : Env) (st : State) (log : list Step) :
  AuthProvider JSON_parse StringToNumber ObjectToString
    props userData localStorage now = inr ctx ->
  (let r := run env (AuthContextProps.logout ctx) st log in
   outcome r = Resolved tt ->
   respond env log (RemoveUser (userManager props)) = inr tt /\
   state r = None /\
   history r =
     log ++ [Called (RemoveUser (userManager props)); Set_userData None]
         ++ invoked (AuthProviderProps.onSignOut props)) /\
  (forall args,
   let r := run env (AuthContextProps.signOutRedirect ctx args) st log in
   outcome r = Resolved tt ->
   respond env log (SignoutRedirect (userManager props) args) = inr tt /\
   state r = None /\
   history r =
     log ++ [Called (SignoutRedirect (userManager props) args);
             Set_userData None]
         ++ invoked (AuthProviderProps.onSignOut props)).
Proof.
  intros Hctx.
  destruct (AuthProvider_fields _ _ _ _ _ _ _ _ Hctx) as (_ & -> & -> & _).
  split; [| intros args]; cbv zeta.
  - unfold logout. rewrite run_bind. unfold await. cbn [run].
    destruct (respond env log (RemoveUser (userManager props)))
      as [e | []]; cbn [outcome state history]; [discriminate |].
    intros _.
    destruct (run_signOutHooks props env st
                (log ++ [Called (RemoveUser (userManager props))]))
      as [-> ->].
    rewrite <- app_assoc. auto.
  - unfold signOutRedirect. rewrite run_bind. unfold await. cbn [run].
    destruct (respond env log (SignoutRedirect (userManager props) args))
      as [e | []]; cbn [outcome state history]; [discriminate |].
    intros _.
    destruct (run_signOutHooks props env st
                (log ++ [Called (SignoutRedirect (userManager props) args)]))
      as [-> ->].
    rewrite <- app_assoc. auto.
Qed.

Lemma signOut_sequence_witness :
  exists ctx,
    AuthProvider JSON.parse Sample.no_number Sample.no_string
      Sample.props (Some Sample.alice) Sample.storage 1700000500000
    = inr ctx /\
    (let r := run (Sample.env None) (AuthContextProps.logout ctx)
                (Some Sample.alice) [] in
     outcome r = Resolved tt /\
     state r = None /\
     history r =
       [Called (RemoveUser (userManager Sample.props)); Set_userData None;
        Called (Invoke Sample.onSignOut)]) /\
    (let r := run (Sample.env None)
                (AuthContextProps.signOutRedirect ctx (Some "bye"))
                (Some Sample.alice) [] in
     outcome r = Resolved tt /\
     state r = None /\
     history r =
       [Called (SignoutRedirect (userManager Sample.props) (Some "bye"));
        Set_userData None; Called (Invoke Sample.onSignOut)]).
Proof.
  eexists. split; [vm_compute; reflexivity |].
  destruct (signOut_sequence JSON.parse Sample.no_number Sample.no_string
              Sample.props (Some Sample.alice) Sample.storage 1700000500000
              _ (Sample.env None) (Some Sample.alice) [] eq_refl)
    as [Hout Hredirect].
  split.
  - split; [vm_compute; reflexivity |].
    apply Hout. vm_compute. reflexivity.
  - split; [vm_compute; reflexivity |].
    apply (Hredirect (Some "bye")). vm_compute. reflexivity.
Defined.

(** ** The page-load effect *)

(** C3: on a return from the identity provider, once [signinCallback]
    has given a user, the state is that very user and the history is the
    call of [signinCallback], the state update and, when the props have
    [onSignIn], its call with the same user: nothing else is called. *)
Theorem signinCallback_branch
    props window_location (env : Env) (st : State) (log : list Step) user :
  hasCodeInUrl (location props window_location) = true ->
  respond env log (SigninCallback (userManager props)) = inr user ->
  let r := run env (getUser props window_location) st log in
  state r = Some user /\
  history r =
    log ++ [Called (SigninCallback (userManager props));
            Set_userData (Some user)]
        ++ invoked_with (AuthProviderProps.onSignIn props) user.
Proof.
  intros Hcode Huser. cbv zeta. unfold getUser. rewrite Hcode.
  destruct (AuthProviderProps.onSignIn props) as [f |]; run_cbn;
    rewrite Huser; run_cbn.
  - destruct (respond env _ (InvokeWith f user)) as [e | []]; run_cbn;
      rewrite <- !app_assoc; auto.
  - rewrite <- !app_assoc; auto.
Qed.

Lemma signinCallback_branch_witness :
  let r := run (Sample.env None) (getUser Sample.props Sample.returning)
             None [] in
  state r = Some Sample.alice /\
  history r =
    [Called (SigninCallback (userManager Sample.props));
     Set_userData (Some Sample.alice);
     Called (InvokeWith Sample.onSignIn Sample.alice)].
Proof.
  apply (signinCallback_branch Sample.props Sample.returning
           (Sample.env None) None [] Sample.alice);
    vm_compute; reflexivity.
Defined.

(** What the effect does once [getUser] has given [user], with [asked]
    the history up to that answer. *)
Lemma run_getUser_asked
    props window_location (env : Env) (st : State) (log : list Step) user :
  hasCodeInUrl (location props window_location) = false ->
  respond env log (GetUser (userManager props)) = inr user ->
  let asked := log ++ [Called (GetUser (userManager props))] in
  run env (getUser props window_location) st log =
    if absent_or_expired (clock env asked) user && autoSignIn props then
      run env
        (bind (and_call (AuthProviderProps.onBeforeSignIn props))
           (fun _ => detached (SigninRedirect (userManager props) None)))
        st asked
    else run env (setUserData user) st asked.
Proof.
  intros Hcode Huser. cbv zeta. unfold getUser. rewrite Hcode. run_cbn.
  rewrite Huser. run_cbn. unfold absent_or_expired.
  destruct user as [u |]; run_cbn;
    [destruct (expired u _) |]; destruct (autoSignIn props); reflexivity.
Qed.

(** C4 (amended): on a page load that is no return the provider asks
    [getUser].  With no user or a user expired at that moment, and
    [autoSignIn] left out or [true], [userData] stays as it was; the
    provider calls [onBeforeSignIn] when the props have it and then,
    unless that call throws, [signinRedirect()], which it does not
    await; when [onBeforeSignIn] throws the effect is rejected there,
    without a redirect.  With a user that is not expired, or with
    [autoSignIn] [false], [userData] becomes what [getUser] gave. *)
Theorem getUser_branch
    props window_location (env : Env) (st : State) (log : list Step) user :
  hasCodeInUrl (location props window_location) = false ->
  respond env log (GetUser (userManager props)) = inr user ->
  let um := userManager props in
  let asked := log ++ [Called (GetUser um)] in
  let r := run env (getUser props window_location) st log in
  (user = None \/
   (exists u, user = Some u /\ expired u (clock env asked) = true) ->
   AuthProviderProps.autoSignIn props = None \/
   AuthProviderProps.autoSignIn props = Some true ->
   state r = st /\
   match AuthProviderProps.onBeforeSignIn props with
   | None =>
       outcome r = Resolved tt /\
       history r = asked ++ [Called (SigninRedirect um None)]
   | Some f =>
       match respond env asked (Invoke f) with
       | inr _ =>
           outcome r = Resolved tt /\
           history r =
             asked ++ [Called (Invoke f); Called (SigninRedirect um None)]
       | inl e =>
           outcome r = Rejected e /\
           history r = asked ++ [Called (Invoke f)]
       end
   end) /\
  ((exists u, user = Some u /\ expired u (clock env asked) = false) \/
   AuthProviderProps.autoSignIn props = Some false ->
   state r = user /\
   outcome r = Resolved tt /\
   history r = asked ++ [Set_userData user]).
Proof.
  intros Hcode Huser. cbv zeta.
  rewrite (run_getUser_asked props window_location env st log user
             Hcode Huser).
  split.
  - intros Hstale Hauto.
    assert (Hcond : absent_or_expired
                      (clock env
                         (log ++ [Called (GetUser (userManager props))]))
                      user && autoSignIn props = true).
    { apply andb_true_intro. split.
      - destruct Hstale as [-> | (u & -> & Hu)]; [reflexivity | exact Hu].
      - unfold autoSignIn. destruct Hauto as [-> | ->]; reflexivity. }
    rewrite Hcond.
    destruct (AuthProviderProps.onBeforeSignIn props) as [f |]; run_cbn.
    + destruct (respond env _ (Invoke f)) as [e | []]; run_cbn;
        rewrite <- ?app_assoc; auto.
    + auto.
  - intros Hfresh.
    assert (Hcond : absent_or_expired
                      (clock env
                         (log ++ [Called (GetUser (userManager props))]))
                      user && autoSignIn props = false).
    { destruct Hfresh as [(u & -> & Hu) | Hoff].
      - simpl. now rewrite Hu.
      - unfold autoSignIn. rewrite Hoff. apply andb_false_r. }
    rewrite Hcond. run_cbn. auto.
Qed.

Lemma getUser_branch_witness :
  (let r := run (Sample.env None) (getUser Sample.props Sample.home)
              (Some Sample.alice) [] in
   state r = Some Sample.alice /\
   outcome r = Resolved tt /\
   history r =
     [Called (GetUser (userManager Sample.props));
      Called (Invoke Sample.onBeforeSignIn);
      Called (SigninRedirect (userManager Sample.props) None)]) /\
  (let r := run (Sample.env (Some Sample.stale))
              (getUser Sample.props_explicit Sample.home) None [] in
   state r = None /\
   outcome r = Resolved tt /\
   history r =
     [Called (GetUser (userManager Sample.props_explicit));
      Called (SigninRedirect (userManager Sample.props_explicit) None)]) /\
  (let r := run (Sample.env_throwing None)
              (getUser Sample.props Sample.home) None [] in
   state r = None /\
   outcome r = Rejected (Error "callback failed") /\
   history r =
     [Called (GetUser (userManager Sample.props));
      Called (Invoke Sample.onBeforeSignIn)]) /\
  (let r := run (Sample.env (Some Sample.alice))
              (getUser Sample.props Sample.home) None [] in
   state r = Some Sample.alice /\
   outcome r = Resolved tt /\
   history r =
     [Called (GetUser (userManager Sample.props));
      Set_userData (Some Sample.alice)]) /\
  (let r := run (Sample.env None)
              (getUser Sample.props_with_manager Sample.home)
              (Some Sample.alice) [] in
   state r = None /\
   outcome r = Resolved tt /\
   history r =
     [Called (GetUser (userManager Sample.props_with_manager));
      Set_userData None]).
Proof.
  split; [| split; [| split; [| split]]]; cbv zeta.
  - destruct (getUser_branch Sample.props Sample.home (Sample.env None)
                (Some Sample.alice) [] None eq_refl eq_refl) as [H _].
    destruct H as (Hs & Ho & Hh);
      [now left | now left | exact (conj Hs (conj Ho Hh))].
  - destruct (getUser_branch Sample.props_explicit Sample.home
                (Sample.env (Some Sample.stale)) None []
                (Some Sample.stale) eq_refl eq_refl) as [H _].
    destruct H as (Hs & Ho & Hh);
      [right; exists Sample.stale; split; reflexivity | now right
      | exact (conj Hs (conj Ho Hh))].
  - destruct (getUser_branch Sample.props Sample.home
                (Sample.env_throwing None) None [] None eq_refl eq_refl)
      as [H _].
    destruct H as (Hs & Ho & Hh);
      [now left | now left | exact (conj Hs (conj Ho Hh))].
  - destruct (getUser_branch Sample.props Sample.home
                (Sample.env (Some Sample.alice)) None []
                (Some Sample.alice) eq_refl eq_refl) as [_ H].
    apply H. left. exists Sample.alice. split; reflexivity.
  - destruct (getUser_branch Sample.props_with_manager Sample.home
                (Sample.env None) (Some Sample.alice) [] None
                eq_refl eq_refl) as [_ H].
    apply H. now right.
Defined.

(** With a throwing [onBeforeSignIn] no redirect follows: the effect
    stops at the callback. *)
Lemma onBeforeSignIn_throw_skips_redirect :
  ~ (forall props window_location (env : Env) (st : State) user,
       hasCodeInUrl (location props window_location) = false ->
       respond env [] (GetUser (userManager props)) = inr user ->
       user = None \/
       (exists u, user = Some u /\
                  expired u (clock env [Called (GetUser (userManager props))])
                  = true) ->
       AuthProviderProps.autoSignIn props = None \/
       AuthProviderProps.autoSignIn props = Some true ->
       In (Called (SigninRedirect (userManager props) None))
          (history (run env (getUser props window_location) st []))).
Proof.
  intros H.
  specialize (H Sample.props Sample.home (Sample.env_throwing None) None
                None eq_refl eq_refl (or_introl eq_refl)
                (or_introl eq_refl)).
  vm_compute in H. intuition discriminate.
Qed.

(** When [onBeforeSignIn] throws, the effect ends there: no redirect
    is started and [userData] stays as it was. *)
Lemma getUser_onBeforeSignIn_throws
    props window_location (env : Env) (st : State) (log : list Step)
    user f e :
  hasCodeInUrl (location props window_location) = false ->
  respond env log (GetUser (userManager props)) = inr user ->
  absent_or_expired
    (clock env (log ++ [Called (GetUser (userManager props))])) user
  && autoSignIn props = true ->
  AuthProviderProps.onBeforeSignIn props = Some f ->
  respond env (log ++ [Called (GetUser (userManager props))]) (Invoke f)
  = inl e ->
  let r := run env (getUser props window_location) st log in
  outcome r = Rejected e /\
  state r = st /\
  history r = log ++ [Called (GetUser (userManager props));
                      Called (Invoke f)].
Proof.
  intros Hcode Huser Hauto Hf Hthrow. cbv zeta.
  rewrite (run_getUser_asked props window_location env st log user
             Hcode Huser), Hauto, Hf.
  run_cbn. rewrite Hthrow. run_cbn. rewrite <- app_assoc. auto.
Qed.

(** ** hasCodeInUrl *)

Lemma truthy_or a b : Js.truthy (Js.or a b) = Js.truthy a || Js.truthy b.
Proof. unfold Js.or. destruct (Js.truthy a) eqn:Ha; simpl; auto. Qed.

Lemma truthy_nonempty v :
  Js.truthy v = true <-> exists s, v = Some s /\ s <> "".
Proof.
  destruct v as [[| c s] |]; simpl; split; try discriminate.
  - intros (s & [= <-] & Hs). now destruct Hs.
  - intros _. exists (String c s). split; [reflexivity | discriminate].
  - reflexivity.
  - intros (s & H & _). discriminate.
Qed.

(** [get] finds the first pair of that name. *)
Lemma get_first name (ps : URLSearchParams.t) v :
  URLSearchParams.get name ps = Some v <->
  exists before after,
    ps = before ++ (name, v) :: after /\
    forall p, In p before -> fst p <> name.
Proof.
  induction ps as [| [n w] ps IH]; simpl.
  - split; [discriminate |].
    intros (before & after & H & _). now destruct before.
  - destruct (String.eqb_spec n name) as [-> | Hne].
    + split.
      * intros [= ->]. exists [], ps. split; [reflexivity |]. intros p [].
      * intros (before & after & H & Hb).
        destruct before as [| p before]; simpl in H.
        -- now injection H as ->.
        -- injection H as <- _. now destruct (Hb (name, w) (or_introl eq_refl)).
    + rewrite IH. split.
      * intros (before & after & -> & Hb).
        exists ((n, w) :: before), after. split; [reflexivity |].
        intros p [<- | Hp]; [exact Hne | now apply Hb].
      * intros (before & after & H & Hb).
        destruct before as [| p before]; simpl in H.
        -- injection H as -> _. now destruct Hne.
        -- injection H as <- ->. exists before, after.
           split; [reflexivity |]. intros q Hq. apply Hb. now right.
Qed.

Lemma truthy_get_first name ps :
  Js.truthy (URLSearchParams.get name ps) = true <-> first_nonempty name ps.
Proof.
  rewrite truthy_nonempty. unfold first_nonempty. split.
  - intros (v & Hget & Hv). apply get_first in Hget.
    destruct Hget as (before & after & -> & Hb).
    now exists before, v, after.
  - intros (before & v & after & -> & Hb & Hv). exists v.
    split; [| exact Hv]. apply get_first. now exists before, after.
Qed.

Lemma hasCodeInUrl_orb loc :
  hasCodeInUrl loc =
    Js.truthy (URLSearchParams.get "code" (searchParams loc))
    || Js.truthy (URLSearchParams.get "id_token" (searchParams loc))
    || Js.truthy (URLSearchParams.get "session_state" (searchParams loc))
    || Js.truthy (URLSearchParams.get "code" (hashParams loc))
    || Js.truthy (URLSearchParams.get "id_token" (hashParams loc))
    || Js.truthy (URLSearchParams.get "session_state" (hashParams loc)).
Proof.
  unfold hasCodeInUrl, Js.Boolean. cbv zeta. fold (searchParams loc).
  fold (hashParams loc). rewrite !truthy_or, !orb_assoc. reflexivity.
Qed.

Lemma hasCodeInUrl_first loc :
  hasCodeInUrl loc = true <-> first_values_nonempty loc.
Proof.
  rewrite hasCodeInUrl_orb, !orb_true_iff, !truthy_get_first.
  unfold first_values_nonempty, relevant_parameters. split.
  - intros [[[[[H | H] | H] | H] | H] | H];
      [ exists "code" | exists "id_token" | exists "session_state"
      | exists "code" | exists "id_token" | exists "session_state" ];
      simpl; auto 6.
  - intros (name & Hin & H). simpl in Hin.
    destruct Hin as [<- | [<- | [<- | []]]]; destruct H as [H | H]; auto 7.
Qed.

(** Whenever [hasCodeInUrl] holds, a parameter does appear with a
    non-empty value. *)
Lemma first_nonempty_appears name ps :
  first_nonempty name ps -> appears_nonempty name ps.
Proof.
  intros (before & v & after & -> & _ & Hv). exists v.
  split; [| exact Hv]. apply in_or_app. right. now left.
Qed.

Lemma hasCodeInUrl_appears loc :
  hasCodeInUrl loc = true -> spec_returning_from_redirect loc.
Proof.
  rewrite hasCodeInUrl_first. intros (name & Hin & H). exists name.
  split; [exact Hin |].
  destruct H as [H | H]; [left | right]; now apply first_nonempty_appears.
Qed.

(** The two readings differ on repeated names only. *)
Lemma appears_first_nonempty name (ps : URLSearchParams.t) :
  List.NoDup (map fst ps) ->
  appears_nonempty name ps -> first_nonempty name ps.
Proof.
  intros Hnodup (v & Hin & Hv).
  destruct (in_split _ _ Hin) as (before & after & ->).
  exists before, v, after. split; [reflexivity |]. split; [| exact Hv].
  intros p Hp Heq.
  rewrite map_app in Hnodup. simpl in Hnodup.
  apply List.NoDup_remove_2 in Hnodup. apply Hnodup.
  apply in_or_app. left. rewrite <- Heq. now apply in_map.
Qed.

Lemma hasCodeInUrl_appears_no_duplicates loc :
  List.NoDup (map fst (searchParams loc)) ->
  List.NoDup (map fst (hashParams loc)) ->
  (hasCodeInUrl loc = true <-> spec_returning_from_redirect loc).
Proof.
  intros Hs Hh. split; [apply hasCodeInUrl_appears |].
  rewrite hasCodeInUrl_first. intros (name & Hin & H). exists name.
  split; [exact Hin |].
  destruct H as [H | H]; [left | right]; now apply appears_first_nonempty.
Qed.

(** The signinCallback branch is the one taken exactly when
    [hasCodeInUrl] holds. *)
Lemma getUser_takes_signinCallback props window_location env st :
  In (Called (SigninCallback (userManager props)))
     (history (run env (getUser props window_location) st []))
  <-> hasCodeInUrl (location props window_location) = true.
Proof.
  unfold getUser.
  destruct (hasCodeInUrl (location props window_location)); run_cbn.
  - split; [reflexivity | intros _].
    destruct (respond env [] (SigninCallback (userManager props)))
      as [e | user]; run_cbn; [now left |].
    destruct (AuthProviderProps.onSignIn props) as [f |]; run_cbn;
      [destruct (respond env _ (InvokeWith f user)) |]; now left.
  - split; [| discriminate].
    destruct (respond env [] (GetUser (userManager props)))
      as [e | user]; run_cbn.
    + simpl. intuition discriminate.
    + destruct user as [u |]; run_cbn; destruct (_ && _); run_cbn;
        try (destruct (AuthProviderProps.onBeforeSignIn props) as [f |];
             run_cbn;
             [destruct (respond env _ (Invoke f)) as [e | []]; run_cbn |]);
        simpl; intuition discriminate.
Qed.

(** C1 (amended): [hasCodeInUrl] holds exactly when, for one of [code],
    [id_token] and [session_state], the first pair of that name in the
    query string or in the fragment has a non-empty value; and the
    page-load effect calls [signinCallback] exactly when [hasCodeInUrl]
    holds of the provider's location. *)
Theorem hasCodeInUrl_decides_branch :
  (forall loc, hasCodeInUrl loc = true <-> first_values_nonempty loc) /\
  (forall props window_location env st,
     In (Called (SigninCallback (userManager props)))
        (history (run env (getUser props window_location) st []))
     <-> hasCodeInUrl (location props window_location) = true).
Proof.
  split.
  - exact hasCodeInUrl_first.
  - exact getUser_takes_signinCallback.
Qed.

Lemma hasCodeInUrl_decides_branch_witness :
  first_values_nonempty Sample.returning /\
  In (Called (SigninCallback (userManager Sample.props)))
     (history (run (Sample.env None)
                 (getUser Sample.props Sample.returning) None [])).
Proof.
  destruct hasCodeInUrl_decides_branch as [Hfirst Hbranch]. split.
  - apply Hfirst. vm_compute. reflexivity.
  - apply Hbranch. vm_compute. reflexivity.
Defined.

(** A second [code] with a value does not count when the first one is
    empty: the parameter appears with a non-empty value, yet
    [hasCodeInUrl] is false. *)
Lemma hasCodeInUrl_ignores_later_value :
  ~ (hasCodeInUrl {| search := "?code=&code=abc"; hash := "" |} = true <->
     spec_returning_from_redirect
       {| search := "?code=&code=abc"; hash := "" |}).
Proof.
  intros [_ H].
  assert (Hfalse : hasCodeInUrl {| search := "?code=&code=abc"; hash := "" |}
                   = false) by (vm_compute; reflexivity).
  rewrite H in Hfalse; [discriminate |].
  exists "code". split; [now left |]. left. exists "abc".
  split; [| discriminate]. right. left. reflexivity.
Qed.

(** ** Empty parameters and throwing callbacks *)

(** C10: whenever [logout] gets to call [onSignOut], it has cleared
    [userData] before, so that the state is [null] even when the callback
    throws; and a location in which each of the three parameters is
    missing or has an empty first value, such as [?code=], makes
    [hasCodeInUrl] false and never leads to [signinCallback]. *)
Theorem empty_and_throwing :
  (forall props (env : Env) (st : State),
     let r := run env (logout props) st [] in
     (forall f pre post,
        history r = pre ++ Called (Invoke f) :: post ->
        In (Set_userData None) pre /\ state r = None) /\
     (forall f e,
        AuthProviderProps.onSignOut props = Some f ->
        respond env [] (RemoveUser (userManager props)) = inr tt ->
        respond env [Called (RemoveUser (userManager props));
                     Set_userData None] (Invoke f) = inl e ->
        outcome r = Rejected e /\ state r = None)) /\
  (forall loc,
     (forall name, In name relevant_parameters ->
        (URLSearchParams.get name (searchParams loc) = None \/
         URLSearchParams.get name (searchParams loc) = Some "") /\
        (URLSearchParams.get name (hashParams loc) = None \/
         URLSearchParams.get name (hashParams loc) = Some "")) ->
     hasCodeInUrl loc = false /\
     forall props window_location env st,
       location props window_location = loc ->
       ~ In (Called (SigninCallback (userManager props)))
            (history (run env (getUser props window_location) st []))) /\
  hasCodeInUrl {| search := "?code="; hash := "" |} = false.
Proof.
  split; [| split].
  - intros props env st. cbv zeta. unfold logout, signOutHooks. split.
    + intros f pre post. run_cbn.
      destruct (respond env [] (RemoveUser (userManager props)))
        as [e | []]; run_cbn.
      * simpl. intros H.
        destruct pre as [| p [| q pre]]; simpl in H; discriminate.
      * destruct (AuthProviderProps.onSignOut props) as [g |]; run_cbn;
          [destruct (respond env _ (Invoke g)) as [e | []]; run_cbn |];
          simpl; intros H;
          destruct pre as [| p [| q [| x pre]]]; simpl in H;
          try discriminate; injection H as <- <- _;
          (split; [right; left |]; reflexivity).
    + intros f e Hf Hremove Hthrow. run_cbn. rewrite Hremove. run_cbn.
      rewrite Hf. run_cbn. simpl app. rewrite Hthrow. run_cbn. auto.
  - intros loc Hempty.
    assert (Hfalse : hasCodeInUrl loc = false).
    { rewrite hasCodeInUrl_orb.
      assert (Hget : forall name ps,
                 URLSearchParams.get name ps = None \/
                 URLSearchParams.get name ps = Some "" ->
                 Js.truthy (URLSearchParams.get name ps) = false)
        by (intros name ps [-> | ->]; reflexivity).
      destruct (Hempty "code") as [H1 H4]; [simpl; auto |].
      destruct (Hempty "id_token") as [H2 H5]; [simpl; auto |].
      destruct (Hempty "session_state") as [H3 H6]; [simpl; auto |].
      rewrite !Hget by assumption. reflexivity. }
    split; [exact Hfalse |].
    intros props window_location env st <- Hin.
    apply getUser_takes_signinCallback in Hin. congruence.
  - vm_compute. reflexivity.
Qed.

Lemma empty_and_throwing_witness :
  (let r := run (Sample.env_throwing None) (logout Sample.props)
              (Some Sample.alice) [] in
   (In (Set_userData None)
       [Called (RemoveUser (userManager Sample.props)); Set_userData None]
    /\ state r = None) /\
   outcome r = Rejected (Error "callback failed")) /\
  hasCodeInUrl {| search := "?code="; hash := "#id_token=&foo=1" |} = false.
Proof.
  destruct empty_and_throwing as (Hlogout & Hempty & _).
  destruct (Hlogout Sample.props (Sample.env_throwing None)
              (Some Sample.alice)) as [Horder Hthrow].
  split; [split |].
  - apply (Horder Sample.onSignOut
             [Called (RemoveUser (userManager Sample.props));
              Set_userData None] []).
    vm_compute. reflexivity.
  - apply (Hthrow Sample.onSignOut (Error "callback failed"));
      vm_compute; reflexivity.
  - apply (Hempty {| search := "?code="; hash := "#id_token=&foo=1" |}).
    intros name [<- | [<- | [<- | []]]]; vm_compute; auto.
Defined.

(** ** The userLoaded subscription *)

(** C7: the mount effect makes one call, registering on [userLoaded] the
    closure of [updateUserData] over the provider's manager, and touches
    no state; each run of that handler asks [getUser] and stores what it
    gives; the cleanup the effect returns makes one call, removing that
    same closure from the same manager. *)
Theorem userLoaded_subscription
    props (env : Env) (st : State) (log : list Step) :
  let um := userManager props in
  let h := updateUserData_closure um in
  let mount := run env (userLoadedEffect props) st log in
  history mount = log ++ [Called (AddUserLoaded um h)] /\
  state mount = st /\
  (respond env log (AddUserLoaded um h) = inr tt ->
   exists cleanup, outcome mount = Resolved cleanup) /\
  (forall (env' : Env) (st' : State) (log' : list Step) user,
     respond env' log' (GetUser um) = inr user ->
     let r := run env' (Handler_body h) st' log' in
     state r = user /\
     history r = log' ++ [Called (GetUser um); Set_userData user]) /\
  (forall cleanup, outcome mount = Resolved cleanup ->
   forall (env' : Env) (st' : State) (log' : list Step),
     let r := run env' cleanup st' log' in
     history r = log' ++ [Called (RemoveUserLoaded um h)] /\
     state r = st').
Proof.
  cbv zeta. unfold userLoadedEffect. run_cbn.
  destruct (respond env log
              (AddUserLoaded (userManager props)
                 (updateUserData_closure (userManager props))))
    as [e | []]; run_cbn.
  - split; [reflexivity |]. split; [reflexivity |].
    split; [discriminate |]. split; [| discriminate].
    intros env' st' log' user Huser. unfold Handler_body, updateUserData.
    run_cbn. rewrite Huser. run_cbn. rewrite <- app_assoc. auto.
  - split; [reflexivity |]. split; [reflexivity |].
    split; [intros _; eexists; reflexivity |]. split.
    + intros env' st' log' user Huser. unfold Handler_body, updateUserData.
      run_cbn. rewrite Huser. run_cbn. rewrite <- app_assoc. auto.
    + intros cleanup [= <-] env' st' log'. run_cbn.
      destruct (respond env' log' _) as [e | []]; run_cbn; auto.
Qed.

Lemma userLoaded_subscription_witness :
  let um := userManager Sample.props in
  let h := updateUserData_closure um in
  exists cleanup,
    outcome (run (Sample.env None) (userLoadedEffect Sample.props) None [])
    = Resolved cleanup /\
    state (run (Sample.env (Some Sample.alice)) (Handler_body h) None [])
    = Some Sample.alice /\
    history (run (Sample.env None) cleanup (Some Sample.alice) [])
    = [Called (RemoveUserLoaded um h)].
Proof.
  cbv zeta.
  destruct (userLoaded_subscription Sample.props (Sample.env None) None [])
    as (_ & _ & Hmount & Hhandler & Hcleanup).
  destruct Hmount as [cleanup Hc]; [reflexivity |].
  exists cleanup. split; [exact Hc |]. split.
  - apply (Hhandler (Sample.env (Some Sample.alice)) None []
             (Some Sample.alice)). reflexivity.
  - apply (Hcleanup cleanup Hc (Sample.env None) (Some Sample.alice) []).
Defined.

(** ** isAuthenticated and localStorage *)

Lemma Qltb_lt (x y : Q) : Qltb x y = true <-> (x < y)%Q.
Proof.
  unfold Qltb. rewrite Qlt_alt.
  destruct (x ?= y)%Q; split; congruence.
Qed.

Lemma member_none key (ms : list (string * JSON.value)) :
  JSON.member key ms = None <-> forall p, In p ms -> fst p <> key.
Proof.
  induction ms as [| [k v] ms IH]; simpl.
  - split; [intros _ p [] | reflexivity].
  - destruct (JSON.member key ms) as [y |].
    + split; [discriminate |]. intros Hall.
      apply IH. intros p Hp. apply Hall. now right.
    + destruct (String.eqb_spec k key) as [-> | Hne].
      * split; [discriminate |]. intros Hall.
        now destruct (Hall (key, v) (or_introl eq_refl)).
      * split; [| reflexivity].
        intros _ p [<- | Hp]; [exact Hne | now apply IH].
Qed.

(** [JSON.member] finds the last member of that name. *)
Lemma member_last key (ms : list (string * JSON.value)) x :
  JSON.member key ms = Some x <->
  exists before after,
    ms = before ++ (key, x) :: after /\
    forall p, In p after -> fst p <> key.
Proof.
  split.
  - induction ms as [| [k v] ms IH]; simpl; [discriminate |].
    destruct (JSON.member key ms) as [y |] eqn:Hrest.
    + intros [= ->]. destruct (IH eq_refl) as (before & after & -> & Ha).
      now exists ((k, v) :: before), after.
    + destruct (String.eqb_spec k key) as [-> | Hne]; [| discriminate].
      intros [= ->]. exists [], ms. split; [reflexivity |].
      now apply member_none.
  - intros (before & after & -> & Ha).
    induction before as [| [k v] before IH]; simpl.
    + rewrite (proj2 (member_none key after) Ha).
      now rewrite String.eqb_refl.
    + now rewrite IH.
Qed.

Section StoredSession.

Variable JSON_parse : string -> JsError + JSON.value.
Variable StringToNumber : string -> number.
Variable ObjectToString : JSON.value -> string.

#[local] Abbreviation render :=
  (AuthProvider JSON_parse StringToNumber ObjectToString).
#[local] Abbreviation authenticated :=
  (isAuthenticated JSON_parse StringToNumber ObjectToString).
#[local] Abbreviation less := (less_than StringToNumber ObjectToString).
#[local] Abbreviation to_number := (ToNumber StringToNumber ObjectToString).

Lemma AuthProvider_of_isAuthenticated props userData localStorage now b :
  authenticated props userData localStorage now = inr b ->
  exists ctx,
    render props userData localStorage now = inr ctx /\
    AuthContextProps.isAuthenticated ctx = b.
Proof.
  unfold AuthProvider. intros ->.
  eexists. split; reflexivity.
Qed.

Lemma isAuthenticated_expired props u localStorage now :
  expired u now = true ->
  authenticated props (Some u) localStorage now = inr false.
Proof. unfold isAuthenticated. now intros ->. Qed.

Lemma isAuthenticated_stored props userData localStorage now :
  userData = None \/
  (exists u, userData = Some u /\ expired u now = false) ->
  authenticated props userData localStorage now =
    match storedSession JSON_parse props localStorage with
    | inl e => inl e
    | inr j => inr (less (expires_at_of j) (seconds now))
    end.
Proof.
  unfold isAuthenticated.
  intros [-> | (u & -> & ->)]; reflexivity.
Qed.

Lemma isAuthenticated_key props userData (s1 s2 : Storage) now :
  s1 !! storageKey props = s2 !! storageKey props ->
  authenticated props userData s1 now = authenticated props userData s2 now.
Proof.
  unfold isAuthenticated, storedSession. now intros ->.
Qed.

(** The item read is the one under [oidc.user:{authority}:{clientId}]. *)
Lemma storedSession_key props (localStorage : Storage) authority clientId :
  AuthProviderProps.authority props = Some authority ->
  AuthProviderProps.clientId props = Some clientId ->
  storedSession JSON_parse props localStorage =
    JSON_parse
      (default "null"
         (localStorage !! ("oidc.user:" +:+ authority +:+ ":" +:+ clientId))).
Proof.
  intros Ha Hc. unfold storedSession, storageKey. now rewrite Ha, Hc.
Qed.

(** C8: with a [userData] that is expired at the render, the exposed
    [isAuthenticated] is false.  With [userData] null or not expired,
    it is true exactly when the item stored under the key
    [oidc.user:{authority}:{clientId}] parses to an object whose
    [expires_at] member is [<] the time value divided by 1000, both as
    doubles: for a number, when it is smaller than the double nearest
    to that quotient.  A missing item and the item [null] give
    false. *)
Theorem isAuthenticated_spec
    props userData (localStorage : Storage) (now : Z) authority clientId :
  AuthProviderProps.authority props = Some authority ->
  AuthProviderProps.clientId props = Some clientId ->
  let key := "oidc.user:" +:+ authority +:+ ":" +:+ clientId in
  (forall u, userData = Some u -> expired u now = true ->
     exists ctx,
       render props userData localStorage now = inr ctx /\
       AuthContextProps.isAuthenticated ctx = false) /\
  (userData = None \/
   (exists u, userData = Some u /\ expired u now = false) ->
   (forall ctx, render props userData localStorage now = inr ctx ->
      (AuthContextProps.isAuthenticated ctx = true <->
       exists before x after,
         JSON_parse (default "null" (localStorage !! key))
         = inr (JSON.Object (before ++ ("expires_at", x) :: after)) /\
         (forall p, In p after -> fst p <> "expires_at") /\
         number_lt (to_number (Some x)) (Binary64.round (now # 1000))
         = true)) /\
   (forall text before q after t,
      localStorage !! key = Some text ->
      JSON_parse text
      = inr (JSON.Object
               (before ++ ("expires_at", JSON.Number (Finite q)) :: after)) ->
      (forall p, In p after -> fst p <> "expires_at") ->
      Binary64.round (now # 1000) = Finite t ->
      exists ctx,
        render props userData localStorage now = inr ctx /\
        (AuthContextProps.isAuthenticated ctx = true <-> (q < t)%Q)) /\
   (JSON_parse "null" = inr JSON.Null ->
    localStorage !! key = None \/ localStorage !! key = Some "null" ->
    exists ctx,
      render props userData localStorage now = inr ctx /\
      AuthContextProps.isAuthenticated ctx = false)).
Proof.
  intros Ha Hc. cbv zeta. split.
  - intros u -> Hexp. apply AuthProvider_of_isAuthenticated.
    now apply isAuthenticated_expired.
  - intros Hlive.
    pose proof (isAuthenticated_stored props userData localStorage now Hlive)
      as Hauth.
    rewrite (storedSession_key props localStorage authority clientId Ha Hc)
      in Hauth.
    split; [| split].
    + intros ctx Hctx.
      apply AuthProvider_fields in Hctx.
      destruct Hctx as (_ & _ & _ & _ & _ & _ & Hb).
      rewrite Hauth in Hb.
      destruct (JSON_parse _) as [e | j]; [discriminate |].
      injection Hb as Hb. rewrite <- Hb. unfold less_than, seconds. split.
      * intros Htrue.
        destruct (expires_at_of j) as [x |] eqn:Hx;
          [| discriminate Htrue].
        destruct j as [| | | | | ms]; try discriminate Hx.
        simpl in Hx. apply member_last in Hx.
        destruct Hx as (before & after & -> & Hafter).
        now exists before, x, after.
      * intros (before & x & after & [= ->] & Hafter & Hlt).
        assert (Hx : JSON.member "expires_at"
                       (before ++ ("expires_at", x) :: after) = Some x)
          by (apply member_last; now exists before, after).
        simpl. rewrite Hx. exact Hlt.
    + intros text before q after t Htext Hparse Hafter Ht.
      rewrite Htext in Hauth. simpl in Hauth. rewrite Hparse in Hauth.
      destruct (AuthProvider_of_isAuthenticated _ _ _ _ _ Hauth)
        as (ctx & Hctx & Hb).
      exists ctx. split; [exact Hctx |]. rewrite Hb. simpl.
      assert (Hx : JSON.member "expires_at"
                     (before ++ ("expires_at", JSON.Number (Finite q))
                             :: after)
                   = Some (JSON.Number (Finite q)))
        by (apply member_last; now exists before, after).
      rewrite Hx. unfold less_than, seconds. rewrite Ht. simpl.
      apply Qltb_lt.
    + intros Hnull Hitem.
      assert (Hj : JSON_parse
                     (default "null"
                        (localStorage
                           !! ("oidc.user:" +:+ authority +:+ ":"
                               +:+ clientId)))
                   = inr JSON.Null)
        by (destruct Hitem as [-> | ->]; exact Hnull).
      rewrite Hj in Hauth. apply AuthProvider_of_isAuthenticated.
      exact Hauth.
Qed.

(** C2 (amended): the context value depends on [localStorage] through
    the item under [oidc.user:{authority}:{clientId}] alone, and only
    in [isAuthenticated] or by the render throwing: two contents with
    the same item under that key give the same result; two contents
    whatsoever give context values equal in every other field; and
    with an expired [userData] they give the same context value. *)
Theorem context_value_and_storage
    props userData (s1 s2 : Storage) (now : Z) :
  (s1 !! storageKey props = s2 !! storageKey props ->
   render props userData s1 now = render props userData s2 now) /\
  (forall c1 c2,
     render props userData s1 now = inr c1 ->
     render props userData s2 now = inr c2 ->
     AuthContextProps.login c1 = AuthContextProps.login c2 /\
     AuthContextProps.logout c1 = AuthContextProps.logout c2 /\
     AuthContextProps.signOutRedirect c1
     = AuthContextProps.signOutRedirect c2 /\
     AuthContextProps.userManager c1 = AuthContextProps.userManager c2 /\
     AuthContextProps.userData c1 = AuthContextProps.userData c2 /\
     AuthContextProps.user c1 = AuthContextProps.user c2 /\
     AuthContextProps.method c1 = AuthContextProps.method c2) /\
  (forall u, userData = Some u -> expired u now = true ->
     render props userData s1 now = render props userData s2 now).
Proof.
  split; [| split].
  - intros Hkey. unfold AuthProvider.
    now rewrite (isAuthenticated_key props userData s1 s2 now Hkey).
  - unfold AuthProvider. intros c1 c2.
    destruct (isAuthenticated _ _ _ _ _ s1 _); [discriminate |].
    destruct (isAuthenticated _ _ _ _ _ s2 _); [discriminate |].
    intros [= <-] [= <-]. simpl. repeat split; reflexivity.
  - intros u -> Hexp. unfold AuthProvider.
    now rewrite !isAuthenticated_expired.
Qed.

End StoredSession.

Lemma isAuthenticated_spec_witness :
  (exists ctx,
     AuthProvider JSON.parse Sample.no_number Sample.no_string
       Sample.props (Some Sample.stale) Sample.storage 1700000500000
     = inr ctx /\
     AuthContextProps.isAuthenticated ctx = false) /\
  (exists ctx,
     AuthProvider JSON.parse Sample.no_number Sample.no_string
       Sample.props (Some Sample.alice) Sample.storage 1700000500000
     = inr ctx /\
     AuthContextProps.isAuthenticated ctx = true) /\
  (exists ctx,
     AuthProvider JSON.parse Sample.no_number Sample.no_string
       Sample.props None ∅ 1700000500000
     = inr ctx /\
     AuthContextProps.isAuthenticated ctx = false).
Proof.
  split; [| split].
  - apply (proj1 (isAuthenticated_spec JSON.parse Sample.no_number
                    Sample.no_string Sample.props (Some Sample.stale)
                    Sample.storage 1700000500000 "https://idp.example"
                    "app" eq_refl eq_refl) Sample.stale);
      reflexivity.
  - destruct (isAuthenticated_spec JSON.parse Sample.no_number
                Sample.no_string Sample.props (Some Sample.alice)
                Sample.storage 1700000500000 "https://idp.example" "app"
                eq_refl eq_refl) as [_ H].
    destruct H as (_ & Hnumber & _).
    + right. exists Sample.alice. split; reflexivity.
    + edestruct Hnumber
        with (before := [("id_token", JSON.Str "eyJhbGciOi.e30.c2ln")])
             (after := @nil (string * JSON.value))
        as (ctx & Hctx & Hiff);
        [vm_compute; reflexivity | vm_compute; reflexivity | intros p []
        | vm_compute; reflexivity |].
      exists ctx. split; [exact Hctx |]. apply Hiff. reflexivity.
  - destruct (isAuthenticated_spec JSON.parse Sample.no_number
                Sample.no_string Sample.props None ∅ 1700000500000
                "https://idp.example" "app" eq_refl eq_refl)
      as [_ H].
    destruct H as (_ & _ & Hmissing).
    + now left.
    + apply Hmissing; [vm_compute; reflexivity | now left].
Defined.

(** The comparison is one of doubles: [1699999999.9999999] is read as
    the double [1700000000], which is not below the clock at that very
    second, while [1699999999.9999998] is read as the double before
    it. *)
Lemma isAuthenticated_compares_doubles :
  isAuthenticated JSON.parse Sample.no_number Sample.no_string
    Sample.props None
    {[ "oidc.user:https://idp.example:app" :=
         "{" +:+ Js.quoted "expires_at" +:+ ":1699999999.9999999}" ]}
    1700000000000 = inr false /\
  isAuthenticated JSON.parse Sample.no_number Sample.no_string
    Sample.props None
    {[ "oidc.user:https://idp.example:app" :=
         "{" +:+ Js.quoted "expires_at" +:+ ":1699999999.9999998}" ]}
    1700000000000 = inr true.
Proof. split; vm_compute; reflexivity. Qed.

Lemma context_value_and_storage_witness :
  AuthProvider JSON.parse Sample.no_number Sample.no_string
    Sample.props None Sample.storage 1700000500000
  = AuthProvider JSON.parse Sample.no_number Sample.no_string
      Sample.props None (<["theme" := "dark"]> Sample.storage) 1700000500000
  /\
  AuthProvider JSON.parse Sample.no_number Sample.no_string
    Sample.props (Some Sample.stale) Sample.storage 1700000500000
  = AuthProvider JSON.parse Sample.no_number Sample.no_string
      Sample.props (Some Sample.stale) ∅ 1700000500000.
Proof.
  split.
  - apply (context_value_and_storage JSON.parse Sample.no_number
             Sample.no_string Sample.props None Sample.storage
             (<["theme" := "dark"]> Sample.storage) 1700000500000).
    vm_compute. reflexivity.
  - apply (proj2 (proj2 (context_value_and_storage JSON.parse
                           Sample.no_number Sample.no_string Sample.props
                           (Some Sample.stale) Sample.storage ∅
                           1700000500000)) Sample.stale);
      reflexivity.
Defined.

(** With the session of [Sample.storage], which ran out 500 seconds
    before the clock, [isAuthenticated] is true; with nothing stored it
    is false: the field follows what is stored under the key. *)
Lemma isAuthenticated_varies_with_storage :
  ~ (forall (StringToNumber : string -> number)
            (ObjectToString : JSON.value -> string)
            (s1 s2 : Storage) (c1 c2 : AuthContextProps),
       AuthProvider JSON.parse StringToNumber ObjectToString
         Sample.props None s1 1700000500000 = inr c1 ->
       AuthProvider JSON.parse StringToNumber ObjectToString
         Sample.props None s2 1700000500000 = inr c2 ->
       AuthContextProps.isAuthenticated c1
       = AuthContextProps.isAuthenticated c2).
Proof.
  intros H.
  specialize (H Sample.no_number Sample.no_string Sample.storage ∅
                _ _ eq_refl eq_refl).
  vm_compute in H. discriminate.
Qed.

(** * Further properties of the closures *)

(** ** Rejections *)

(** X1: when [signinCallback] is rejected on a return from the identity
    provider, the page-load effect is rejected with the same error,
    [userData] keeps its value, [onSignIn] is not called and nothing
    else happens. *)
Theorem signinCallback_rejected
    props window_location (env : Env) (st : State) (log : list Step) e :
  hasCodeInUrl (location props window_location) = true ->
  respond env log (SigninCallback (userManager props)) = inl e ->
  let r := run env (getUser props window_location) st log in
  outcome r = Rejected e /\
  state r = st /\
  history r = log ++ [Called (SigninCallback (userManager props))].
Proof.
  intros Hcode Hrej. cbv zeta. unfold getUser. rewrite Hcode. run_cbn.
  rewrite Hrej. run_cbn. auto.
Qed.

Lemma signinCallback_rejected_witness :
  let r := run (Sample.env_unreachable None)
             (getUser Sample.props Sample.returning)
             (Some Sample.stale) [] in
  outcome r = Rejected (Error "Network Error") /\
  state r = Some Sample.stale /\
  history r = [Called (SigninCallback (userManager Sample.props))].
Proof.
  apply (signinCallback_rejected Sample.props Sample.returning
           (Sample.env_unreachable None) (Some Sample.stale) []);
    vm_compute; reflexivity.
Defined.

(** X2: when [getUser] is rejected on an ordinary page load, the effect
    is rejected with the same error: no redirect is started, even with
    [autoSignIn] on, no callback is called and [userData] keeps its
    value. *)
Theorem getUser_rejected
    props window_location (env : Env) (st : State) (log : list Step) e :
  hasCodeInUrl (location props window_location) = false ->
  respond env log (GetUser (userManager props)) = inl e ->
  let r := run env (getUser props window_location) st log in
  outcome r = Rejected e /\
  state r = st /\
  history r = log ++ [Called (GetUser (userManager props))].
Proof.
  intros Hcode Hrej. cbv zeta. unfold getUser. rewrite Hcode. run_cbn.
  rewrite Hrej. run_cbn. auto.
Qed.

Lemma getUser_rejected_witness :
  let r := run Sample.env_broken_store (getUser Sample.props Sample.home)
             None [] in
  outcome r = Rejected (Error "QuotaExceededError") /\
  state r = None /\
  history r = [Called (GetUser (userManager Sample.props))].
Proof.
  apply (getUser_rejected Sample.props Sample.home Sample.env_broken_store
           None []); vm_compute; reflexivity.
Defined.

(** X3: the redirect of the automatic sign-in is not awaited: once
    [getUser] has given no user or an expired one and [onBeforeSignIn]
    has returned, the page-load effect resolves, whatever becomes of
    [signinRedirect()]. *)
Theorem autoSignIn_redirect_not_awaited
    props window_location (env : Env) (st : State) (log : list Step) user :
  hasCodeInUrl (location props window_location) = false ->
  respond env log (GetUser (userManager props)) = inr user ->
  absent_or_expired
    (clock env (log ++ [Called (GetUser (userManager props))])) user
  && autoSignIn props = true ->
  (forall f, AuthProviderProps.onBeforeSignIn props = Some f ->
     respond env (log ++ [Called (GetUser (userManager props))]) (Invoke f)
     = inr tt) ->
  outcome (run env (getUser props window_location) st log) = Resolved tt.
Proof.
  intros Hcode Huser Hauto Hcb.
  rewrite (run_getUser_asked props window_location env st log user
             Hcode Huser), Hauto.
  destruct (AuthProviderProps.onBeforeSignIn props) as [f |]; run_cbn.
  - rewrite (Hcb f eq_refl). run_cbn. reflexivity.
  - reflexivity.
Qed.

Lemma autoSignIn_redirect_not_awaited_witness :
  respond (Sample.env_unreachable None)
    [Called (GetUser (userManager Sample.props));
     Called (Invoke Sample.onBeforeSignIn)]
    (SigninRedirect (userManager Sample.props) None)
  = inl (Error "Network Error") /\
  outcome (run (Sample.env_unreachable None)
             (getUser Sample.props Sample.home) None [])
  = Resolved tt.
Proof.
  split; [reflexivity |].
  apply (autoSignIn_redirect_not_awaited Sample.props Sample.home
           (Sample.env_unreachable None) None [] None);
    vm_compute; reflexivity.
Defined.

(** X4: when the manager's call is rejected, [logout] and
    [signOutRedirect] are rejected with the same error and stop there:
    [userData] is not cleared and [onSignOut] is not called. *)
Theorem signOut_rejected
    props (env : Env) (st : State) (log : list Step) e :
  (respond env log (RemoveUser (userManager props)) = inl e ->
   let r := run env (logout props) st log in
   outcome r = Rejected e /\
   state r = st /\
   history r = log ++ [Called (RemoveUser (userManager props))]) /\
  (forall args,
   respond env log (SignoutRedirect (userManager props) args) = inl e ->
   let r := run env (signOutRedirect props args) st log in
   outcome r = Rejected e /\
   state r = st /\
   history r = log ++ [Called (SignoutRedirect (userManager props) args)]).
Proof.
  split; [| intros args]; intros Hrej; cbv zeta;
    unfold logout, signOutRedirect, signOutHooks; run_cbn;
    rewrite Hrej; run_cbn; auto.
Qed.

Lemma signOut_rejected_witness :
  state (run Sample.env_broken_store (logout Sample.props)
           (Some Sample.alice) [])
  = Some Sample.alice /\
  history (run (Sample.env_unreachable None)
             (signOutRedirect Sample.props None) (Some Sample.alice) [])
  = [Called (SignoutRedirect (userManager Sample.props) None)].
Proof.
  split.
  - apply (proj1 (signOut_rejected Sample.props Sample.env_broken_store
                    (Some Sample.alice) [] (Error "QuotaExceededError"))).
    reflexivity.
  - apply (proj2 (signOut_rejected Sample.props (Sample.env_unreachable None)
                    (Some Sample.alice) [] (Error "Network Error")) None).
    reflexivity.
Defined.

(** ** What the closures never do *)

(** X5: whatever the page-load effect stores in [userData] is what the
    library has just returned: the user of [signinCallback] or the
    result of [getUser]. *)
Theorem getUser_stores_library_results
    props window_location (env : Env) (st : State) u :
  In (Set_userData u)
     (history (run env (getUser props window_location) st [])) ->
  (exists user,
     respond env [] (SigninCallback (userManager props)) = inr user /\
     u = Some user) \/
  respond env [] (GetUser (userManager props)) = inr u.
Proof.
  unfold getUser.
  destruct (hasCodeInUrl (location props window_location)); run_cbn.
  - destruct (respond env [] (SigninCallback (userManager props)))
      as [e | user]; run_cbn.
    + simpl. intuition discriminate.
    + destruct (AuthProviderProps.onSignIn props) as [f |]; run_cbn;
        [destruct (respond env _ (InvokeWith f user)) as [e | []]; run_cbn |];
        simpl; intros [[=] | [[= <-] | H]]; try (left; eauto);
        try (destruct H as [[=] | []]); try destruct H.
  - destruct (respond env [] (GetUser (userManager props)))
      as [e | user]; run_cbn.
    + simpl. intuition discriminate.
    + destruct user as [u' |]; run_cbn; destruct (_ && _); run_cbn;
        try (destruct (AuthProviderProps.onBeforeSignIn props) as [f |];
             run_cbn;
             [destruct (respond env _ (Invoke f)) as [e | []]; run_cbn |]);
        simpl; try (intuition discriminate);
        intros [[=] | [[= <-] | []]]; now right.
Qed.

Lemma getUser_stores_library_results_witness :
  (exists user,
     respond (Sample.env (Some Sample.alice)) []
       (SigninCallback (userManager Sample.props)) = inr user /\
     Some Sample.alice = Some user) \/
  respond (Sample.env (Some Sample.alice)) []
    (GetUser (userManager Sample.props)) = inr (Some Sample.alice).
Proof.
  apply (getUser_stores_library_results Sample.props Sample.home
           (Sample.env (Some Sample.alice)) None (Some Sample.alice)).
  vm_compute. auto.
Defined.

(** X6: with [autoSignIn] switched off the page-load effect never starts
    a redirect and never calls [onBeforeSignIn]: all it can call is
    [signinCallback], [getUser] and [onSignIn]. *)
Theorem autoSignIn_off_never_redirects
    props window_location (env : Env) (st : State) c :
  AuthProviderProps.autoSignIn props = Some false ->
  In (Called c)
     (history (run env (getUser props window_location) st [])) ->
  c = SigninCallback (userManager props) \/
  c = GetUser (userManager props) \/
  exists f user, AuthProviderProps.onSignIn props = Some f /\
                 c = InvokeWith f user.
Proof.
  intros Hoff. unfold getUser.
  destruct (hasCodeInUrl (location props window_location)); run_cbn.
  - destruct (respond env [] (SigninCallback (userManager props)))
      as [e | user]; run_cbn.
    + simpl. intros [[= <-] | []]. now left.
    + destruct (AuthProviderProps.onSignIn props) as [f |]; run_cbn;
        [destruct (respond env _ (InvokeWith f user)) as [e | []]; run_cbn |];
        simpl; intros [[= <-] | [[=] | H]]; try (now left);
        try (destruct H as [[= <-] | []]; right; right; eauto);
        try destruct H.
  - destruct (respond env [] (GetUser (userManager props)))
      as [e | user]; run_cbn.
    + simpl. intros [[= <-] | []]. auto.
    + unfold autoSignIn. rewrite Hoff. simpl default.
      destruct user as [u |]; run_cbn; rewrite andb_false_r; run_cbn;
        simpl; intros [[= <-] | [[=] | []]]; auto.
Qed.

Lemma autoSignIn_off_never_redirects_witness :
  let c := GetUser (userManager Sample.props_with_manager) in
  c = SigninCallback (userManager Sample.props_with_manager) \/
  c = GetUser (userManager Sample.props_with_manager) \/
  exists f user,
    AuthProviderProps.onSignIn Sample.props_with_manager = Some f /\
    c = InvokeWith f user.
Proof.
  apply (autoSignIn_off_never_redirects Sample.props_with_manager
           Sample.home (Sample.env None) None
           (GetUser (userManager Sample.props_with_manager)) eq_refl).
  vm_compute. auto.
Defined.

(** X7: the [userLoaded] handler only mirrors: the one call it makes is
    [getUser], whatever comes back (no user or an expired one start no
    redirect here), and when [getUser] is rejected the handler is
    rejected with [userData] as it was. *)
Theorem updateUserData_only_mirrors
    (um : UserManager) (env : Env) (st : State) :
  let r := run env (Handler_body (updateUserData_closure um)) st [] in
  (forall c, In (Called c) (history r) -> c = GetUser um) /\
  (forall u, In (Set_userData u) (history r) ->
             respond env [] (GetUser um) = inr u) /\
  (forall e, respond env [] (GetUser um) = inl e ->
             outcome r = Rejected e /\ state r = st).
Proof.
  cbv zeta. unfold Handler_body, updateUserData. run_cbn.
  destruct (respond env [] (GetUser um)) as [e | user]; run_cbn; simpl.
  - split; [| split].
    + intros c [[= <-] | []]. reflexivity.
    + intros u [[=] | []].
    + intros e' [= <-]. auto.
  - split; [| split].
    + intros c [[= <-] | [[=] | []]]. reflexivity.
    + intros u [[=] | [[= <-] | []]]. reflexivity.
    + discriminate.
Qed.

Lemma updateUserData_only_mirrors_witness :
  let um := userManager Sample.props in
  let r := run Sample.env_broken_store
             (Handler_body (updateUserData_closure um))
             (Some Sample.alice) [] in
  outcome r = Rejected (Error "QuotaExceededError") /\
  state r = Some Sample.alice.
Proof.
  apply (updateUserData_only_mirrors (userManager Sample.props)
           Sample.env_broken_store (Some Sample.alice)).
  reflexivity.
Defined.

(** ** Signs of rounded quotients *)

Lemma nearest_even_ge (a b : Z) :
  (a / b <= Binary64.nearest_even a b)%Z.
Proof.
  unfold Binary64.nearest_even.
  destruct (2 * (a mod b) ?= b)%Z; [destruct (Z.even (a / b)) | |]; lia.
Qed.

Lemma at_least_pow2_lower n d k k' :
  (k' <= k)%Z -> at_least_pow2 n d k -> at_least_pow2 n d k'.
Proof.
  unfold at_least_pow2. intros Hle H.
  destruct (Z.le_gt_cases 0 k') as [Hk' | Hk'].
  - rewrite (Z.max_r 0 k') by lia. rewrite (Z.max_l 0 (- k')) by lia.
    rewrite (Z.max_r 0 k) in H by lia. rewrite (Z.max_l 0 (- k)) in H by lia.
    simpl in *. 
    assert (2 ^ k' <= 2 ^ k)%Z by (apply Z.pow_le_mono_r; lia).
    nia.
  - rewrite (Z.max_l 0 k') by lia. rewrite (Z.max_r 0 (- k')) by lia.
    destruct (Z.le_gt_cases 0 k) as [Hk | Hk].
    + rewrite (Z.max_r 0 k) in H by lia.
      rewrite (Z.max_l 0 (- k)) in H by lia. simpl in *.
      assert (0 < 2 ^ k)%Z by (apply Z.pow_pos_nonneg; lia).
      assert (0 < 2 ^ (- k'))%Z by (apply Z.pow_pos_nonneg; lia).
      nia.
    + rewrite (Z.max_l 0 k) in H by lia.
      rewrite (Z.max_r 0 (- k)) in H by lia. simpl in *.
      assert (2 ^ (- k) <= 2 ^ (- k'))%Z by (apply Z.pow_le_mono_r; lia).
      nia.
Qed.

Lemma at_least_pow2_log2 n d :
  at_least_pow2 n d (Z.log2 (Zpos n) - Z.log2 (Zpos d) - 1).
Proof.
  unfold at_least_pow2.
  destruct (Z.log2_spec (Zpos n)) as [Hn _]; [lia |].
  destruct (Z.log2_spec (Zpos d)) as [_ Hd]; [lia |].
  pose proof (Z.log2_nonneg (Zpos n)) as Hln.
  pose proof (Z.log2_nonneg (Zpos d)) as Hld.
  set (ln := Z.log2 (Zpos n)) in *. set (ld := Z.log2 (Zpos d)) in *.
  destruct (Z.le_gt_cases 0 (ln - ld - 1)) as [Hk | Hk].
  - rewrite Z.max_r by lia. rewrite Z.max_l by lia. simpl.
    assert (Hpow : (2 ^ Z.succ ld * 2 ^ (ln - ld - 1) = 2 ^ ln)%Z).
    { rewrite <- Z.pow_add_r by lia. f_equal. lia. }
    assert (0 < 2 ^ (ln - ld - 1))%Z by (apply Z.pow_pos_nonneg; lia).
    nia.
  - rewrite Z.max_l by lia. rewrite Z.max_r by lia. simpl.
    assert (Hpow : (2 ^ ln * 2 ^ (- (ln - ld - 1)) = 2 ^ Z.succ ld)%Z).
    { rewrite <- Z.pow_add_r by lia. f_equal. lia. }
    assert (0 < 2 ^ (- (ln - ld - 1)))%Z by (apply Z.pow_pos_nonneg; lia).
    nia.
Qed.

(** A quotient of at least [2 ^ -1074], the least positive double,
    rounds to a positive number. *)
Lemma round_pos_positive n d :
  at_least_pow2 n d (-1074) ->
  number_lt (Finite 0) (Binary64.round_pos n d) = true.
Proof.
  intros Hmin. unfold Binary64.round_pos.
  set (e0 := (Z.log2 (Zpos n) - Z.log2 (Zpos d))%Z).
  set (e := if (Zpos n * 2 ^ Z.max 0 (- e0) <? Zpos d * 2 ^ Z.max 0 e0)%Z
            then (e0 - 1)%Z else e0).
  set (p := Z.max (e - 52) (-1074)).
  set (m := Binary64.nearest_even _ _).
  assert (He : at_least_pow2 n d e).
  { subst e. destruct (Z.ltb_spec (Zpos n * 2 ^ Z.max 0 (- e0))
                         (Zpos d * 2 ^ Z.max 0 e0)) as [_ | Hge].
    - apply at_least_pow2_log2.
    - exact Hge. }
  assert (Hp : at_least_pow2 n d p).
  { subst p. destruct (Z.max_spec (e - 52) (-1074)) as [[_ ->] | [_ ->]].
    - exact Hmin.
    - apply (at_least_pow2_lower n d e); [lia | exact He]. }
  assert (Hm : (1 <= m)%Z).
  { subst m. eapply Z.le_trans; [| apply nearest_even_ge].
    unfold at_least_pow2 in Hp.
    apply Z.div_le_lower_bound; [| lia].
    assert (0 < 2 ^ Z.max 0 p)%Z by (apply Z.pow_pos_nonneg; lia). lia. }
  destruct ((971 <? p) || (p =? 971) && (2 ^ 53 <=? m))%Z; [reflexivity |].
  simpl. unfold Qltb, Qcompare.
  destruct (0 <=? p)%Z eqn:Hsign; simpl; rewrite Z.mul_1_r.
  - apply Z.leb_le in Hsign.
    assert (0 < 2 ^ p)%Z by (apply Z.pow_pos_nonneg; lia).
    assert (Hlt : (0 < m * 2 ^ p)%Z) by nia.
    destruct (m * 2 ^ p)%Z; [lia | reflexivity | lia].
  - destruct m; [lia | reflexivity | lia].
Qed.

(** No positive quotient rounds below zero. *)
Lemma round_pos_opposite n d :
  number_lt (Finite 0) (Binary64.opposite (Binary64.round_pos n d)) = false.
Proof.
  unfold Binary64.round_pos.
  set (p := Z.max _ (-1074)).
  set (a := (Zpos n * 2 ^ Z.max 0 (- p))%Z).
  set (b := (Zpos d * 2 ^ Z.max 0 p)%Z).
  assert (Hm : (0 <= Binary64.nearest_even a b)%Z).
  { eapply Z.le_trans; [| apply nearest_even_ge].
    assert (0 < 2 ^ Z.max 0 p)%Z by (apply Z.pow_pos_nonneg; lia).
    assert (0 < 2 ^ Z.max 0 (- p))%Z by (apply Z.pow_pos_nonneg; lia).
    apply Z.div_pos; subst a b; lia. }
  destruct ((971 <? p) || (p =? 971) && (2 ^ 53 <=? _))%Z; [reflexivity |].
  simpl. unfold Qltb, Qcompare.
  destruct (0 <=? p)%Z eqn:Hsign; simpl; rewrite Z.mul_1_r.
  - apply Z.leb_le in Hsign.
    assert (0 < 2 ^ p)%Z by (apply Z.pow_pos_nonneg; lia).
    assert (Hge : (0 <= Binary64.nearest_even a b * 2 ^ p)%Z) by nia.
    destruct (Binary64.nearest_even a b * 2 ^ p)%Z;
      [reflexivity | reflexivity | lia].
  - destruct (Binary64.nearest_even a b); [reflexivity | reflexivity | lia].
Qed.

(** The sign of [now / 1000] is that of [now]. *)
Lemma seconds_positive now :
  number_lt (Finite 0) (seconds now) = (0 <? now)%Z.
Proof.
  unfold seconds, Binary64.round. simpl Qnum. simpl Qden.
  destruct now as [| n | n].
  - reflexivity.
  - apply round_pos_positive. unfold at_least_pow2.
    change (Z.max 0 (-1074)) with 0%Z. change (Z.max 0 (- -1074)) with 1074%Z.
    assert (1000 <= 2 ^ 1074)%Z by (vm_compute; discriminate). lia.
  - apply round_pos_opposite.
Qed.

(** * Further properties of the context value *)

Section ContextValueEdges.

Variable JSON_parse : string -> JsError + JSON.value.
Variable StringToNumber : string -> number.
Variable ObjectToString : JSON.value -> string.

#[local] Abbreviation render :=
  (AuthProvider JSON_parse StringToNumber ObjectToString).
#[local] Abbreviation authenticated :=
  (isAuthenticated JSON_parse StringToNumber ObjectToString).


(** X9: [isAuthenticated] looks at the props through [authority] and
    [clientId] only: a manager passed in the props, whatever its
    settings, has no part in it, and when the two are left out the key
    read is [oidc.user:undefined:undefined]. *)
Theorem isAuthenticated_ignores_manager
    props props' userData (localStorage : Storage) now :
  AuthProviderProps.authority props = AuthProviderProps.authority props' ->
  AuthProviderProps.clientId props = AuthProviderProps.clientId props' ->
  authenticated props userData localStorage now
  = authenticated props' userData localStorage now /\
  (AuthProviderProps.authority props = None ->
   AuthProviderProps.clientId props = None ->
   storedSession JSON_parse props localStorage
   = JSON_parse
       (default "null" (localStorage !! "oidc.user:undefined:undefined"))).
Proof.
  intros Ha Hc. split.
  - unfold isAuthenticated, storedSession, storageKey.
    rewrite Ha, Hc. reflexivity.
  - intros Ha' Hc'. unfold storedSession, storageKey.
    rewrite Ha', Hc'. reflexivity.
Qed.

(** X10: a stored session without [expires_at] (or a stored value that
    is no object) never authenticates, and one whose [expires_at] is
    [null] authenticates at every clock after the epoch. *)
Theorem isAuthenticated_without_expiry
    props userData (localStorage : Storage) now j :
  userData = None \/
  (exists u, userData = Some u /\ expired u now = false) ->
  storedSession JSON_parse props localStorage = inr j ->
  (expires_at_of j = None ->
   authenticated props userData localStorage now = inr false) /\
  (expires_at_of j = Some JSON.Null ->
   authenticated props userData localStorage now = inr (0 <? now)%Z).
Proof.
  intros Hlive Hj.
  rewrite (isAuthenticated_stored JSON_parse StringToNumber ObjectToString
             props userData localStorage now Hlive), Hj.
  split; intros ->; [reflexivity |].
  unfold less_than, ToNumber. now rewrite seconds_positive.
Qed.

End ContextValueEdges.


Lemma isAuthenticated_ignores_manager_witness :
  isAuthenticated JSON.parse Sample.no_number Sample.no_string
    Sample.props_with_manager None Sample.storage_undefined_key 1
  = isAuthenticated JSON.parse Sample.no_number Sample.no_string
      {| AuthProviderProps.authority := None;
         AuthProviderProps.clientId := None;
         AuthProviderProps.clientSecret := None;
         AuthProviderProps.redirectUri := None;
         AuthProviderProps.responseType := None;
         AuthProviderProps.scope := None;
         AuthProviderProps.automaticSilentRenew := None;
         AuthProviderProps.userManager := None;
         AuthProviderProps.autoSignIn := None;
         AuthProviderProps.onBeforeSignIn := None;
         AuthProviderProps.onSignIn := None;
         AuthProviderProps.onSignOut := None;
         AuthProviderProps.location := None |}
      None Sample.storage_undefined_key 1.
Proof.
  apply (isAuthenticated_ignores_manager JSON.parse Sample.no_number
           Sample.no_string Sample.props_with_manager);
    reflexivity.
Defined.

Lemma isAuthenticated_without_expiry_witness :
  isAuthenticated JSON.parse Sample.no_number Sample.no_string
    Sample.props (Some Sample.alice) Sample.storage_without_expiry
    1700000500000
  = inr false /\
  isAuthenticated JSON.parse Sample.no_number Sample.no_string
    Sample.props_with_manager None Sample.storage_undefined_key 1
  = inr true.
Proof.
  split.
  - eapply (isAuthenticated_without_expiry JSON.parse Sample.no_number
              Sample.no_string Sample.props (Some Sample.alice)
              Sample.storage_without_expiry 1700000500000).
    + right. exists Sample.alice. split; reflexivity.
    + vm_compute. reflexivity.
    + reflexivity.
  - eapply (isAuthenticated_without_expiry JSON.parse Sample.no_number
              Sample.no_string Sample.props_with_manager None
              Sample.storage_undefined_key 1).
    + now left.
    + vm_compute. reflexivity.
    + reflexivity.
Defined.

(** * How the closures and the render compose *)

Section Composition.

Variable JSON_parse : string -> JsError + JSON.value.
Variable StringToNumber : string -> number.
Variable ObjectToString : JSON.value -> string.

#[local] Abbreviation render :=
  (AuthProvider JSON_parse StringToNumber ObjectToString).

(** X12: after a [logout] or a [signOutRedirect] that resolved, the
    next render is that of a null [userData]: the context value has no
    user and none of [id], [avatar], [email] and [name], while its
    [isAuthenticated] is still read off the stored session. *)
Theorem render_after_signOut
    props (env : Env) (st : State) (log : list Step)
    (localStorage : Storage) now args :
  let after_logout := run env (logout props) st log in
  let after_redirect := run env (signOutRedirect props args) st log in
  (outcome after_logout = Resolved tt ->
   render props (state after_logout) localStorage now
   = render props None localStorage now) /\
  (outcome after_redirect = Resolved tt ->
   render props (state after_redirect) localStorage now
   = render props None localStorage now) /\
  (forall ctx, render props None localStorage now = inr ctx ->
     AuthContextProps.userData ctx = None /\
     AuthContextProps.user ctx =
       {| AuthContextProps.id := None;
          AuthContextProps.avatar := None;
          AuthContextProps.email := None;
          AuthContextProps.name := None |} /\
     (AuthContextProps.isAuthenticated ctx = true <->
      exists j, storedSession JSON_parse props localStorage = inr j /\
                less_than StringToNumber ObjectToString
                  (expires_at_of j) (seconds now) = true)).
Proof.
  cbv zeta. split; [| split].
  - unfold logout. rewrite run_bind. unfold await. cbn [run].
    destruct (respond env log (RemoveUser (userManager props)))
      as [e | []]; cbn [outcome state history]; [discriminate |].
    intros _.
    now destruct (run_signOutHooks props env st
                    (log ++ [Called (RemoveUser (userManager props))]))
      as [-> _].
  - unfold signOutRedirect. rewrite run_bind. unfold await. cbn [run].
    destruct (respond env log (SignoutRedirect (userManager props) args))
      as [e | []]; cbn [outcome state history]; [discriminate |].
    intros _.
    now destruct (run_signOutHooks props env st
                    (log ++ [Called (SignoutRedirect (userManager props)
                                       args)]))
      as [-> _].
  - unfold AuthProvider, isAuthenticated. intros ctx.
    destruct (storedSession JSON_parse props localStorage) as [e | j];
      [discriminate |].
    intros [= <-]. simpl. split; [reflexivity |]. split; [reflexivity |].
    split.
    + intros H. exists j. auto.
    + intros (j' & [= <-] & H). exact H.
Qed.

(** X13: after a return from the identity provider on which
    [signinCallback] gave [user], the next render exposes that user:
    [userData] is the user, [id] and [name] are both the [name] of the
    profile, [avatar] is its [picture] and [email] its [email]; and
    when the user is already expired, [isAuthenticated] is false.  When
    [onSignIn] throws the state is the same. *)
Theorem render_after_signinCallback
    props window_location (env : Env) (st : State) (log : list Step)
    (localStorage : Storage) now user ctx :
  hasCodeInUrl (location props window_location) = true ->
  respond env log (SigninCallback (userManager props)) = inr user ->
  render props (state (run env (getUser props window_location) st log))
    localStorage now = inr ctx ->
  AuthContextProps.userData ctx = Some user /\
  AuthContextProps.id (AuthContextProps.user ctx) = name (profile user) /\
  AuthContextProps.name (AuthContextProps.user ctx) = name (profile user) /\
  AuthContextProps.avatar (AuthContextProps.user ctx)
  = picture (profile user) /\
  AuthContextProps.email (AuthContextProps.user ctx) = email (profile user) /\
  (expired user now = true ->
   AuthContextProps.isAuthenticated ctx = false).
Proof.
  intros Hcode Huser.
  assert (Hstate : state (run env (getUser props window_location) st log)
                   = Some user).
  { unfold getUser. rewrite Hcode. run_cbn. rewrite Huser. run_cbn.
    destruct (AuthProviderProps.onSignIn props) as [f |]; run_cbn;
      [destruct (respond env _ (InvokeWith f user)) as [e | []]; run_cbn |];
      reflexivity. }
  rewrite Hstate. unfold AuthProvider, isAuthenticated.
  destruct (expired user now) eqn:Hexp.
  - intros [= <-]. simpl. repeat split; reflexivity.
  - destruct (storedSession JSON_parse props localStorage) as [e | j];
      [discriminate |].
    intros [= <-]. simpl. repeat split; try reflexivity. discriminate.
Qed.

End Composition.

Lemma render_after_signOut_witness :
  AuthProvider JSON.parse Sample.no_number Sample.no_string Sample.props
    (state (run (Sample.env None) (logout Sample.props)
              (Some Sample.alice) []))
    Sample.storage 1700000500000
  = AuthProvider JSON.parse Sample.no_number Sample.no_string Sample.props
      None Sample.storage 1700000500000.
Proof.
  apply (render_after_signOut JSON.parse Sample.no_number Sample.no_string
           Sample.props (Sample.env None) (Some Sample.alice) []
           Sample.storage 1700000500000 None).
  reflexivity.
Defined.

Lemma render_after_signinCallback_witness :
  exists ctx,
    AuthProvider JSON.parse Sample.no_number Sample.no_string Sample.props
      (state (run (Sample.env_throwing None)
                (getUser Sample.props Sample.returning) None []))
      Sample.storage 1700000500000 = inr ctx /\
    AuthContextProps.userData ctx = Some Sample.alice /\
    AuthContextProps.id (AuthContextProps.user ctx) = Some "Alice".
Proof.
  eexists. split; [vm_compute; reflexivity |].
  destruct (render_after_signinCallback JSON.parse Sample.no_number
              Sample.no_string Sample.props Sample.returning
              (Sample.env_throwing None) None [] Sample.storage
              1700000500000 Sample.alice _ eq_refl eq_refl eq_refl)
    as (Hu & Hid & _).
  split; [exact Hu | exact Hid].
Defined.

(** * Further properties of initUserManager and hasCodeInUrl *)

(** X14: a manager built by [initUserManager] never has an empty
    response type or scope: an empty string in the props is replaced by
    the default just as a missing one is, and any other value is taken
    as it is. *)
Theorem initUserManager_never_empty (props : AuthProviderProps) :
  AuthProviderProps.userManager props = None ->
  let s := settings (initUserManager props) in
  response_type s <> "" /\
  scope s <> "" /\
  (AuthProviderProps.responseType props = Some "" ->
   response_type s = "code") /\
  (AuthProviderProps.scope props = Some "" -> scope s = "openid") /\
  (forall v, AuthProviderProps.responseType props = Some v -> v <> "" ->
             response_type s = v) /\
  (forall v, AuthProviderProps.scope props = Some v -> v <> "" ->
             scope s = v).
Proof.
  intros Hnone. unfold initUserManager. rewrite Hnone. simpl.
  split; [| split; [| split; [| split; [| split]]]].
  - now destruct (AuthProviderProps.responseType props) as [[| c r] |].
  - now destruct (AuthProviderProps.scope props) as [[| c r] |].
  - now intros ->.
  - now intros ->.
  - intros v -> Hv. now destruct v.
  - intros v -> Hv. now destruct v.
Qed.

Lemma initUserManager_never_empty_witness :
  response_type (settings (initUserManager Sample.props)) <> "" /\
  scope (settings (initUserManager Sample.props)) <> "".
Proof.
  destruct (initUserManager_never_empty Sample.props eq_refl)
    as (Hr & Hs & _).
  split; [exact Hr | exact Hs].
Defined.

Lemma searchParams_question q h :
  searchParams {| search := "?" +:+ q; hash := h |} = URLSearchParams.parse q.
Proof. reflexivity. Qed.

Lemma hashParams_hash s h :
  hashParams {| search := s; hash := "#" +:+ h |} = URLSearchParams.parse h.
Proof. reflexivity. Qed.

(** X15: a fragment is read exactly as a query string would be:
    [hasCodeInUrl] of a location with search [s] and hash [#h] is
    [hasCodeInUrl] of the search alone or [hasCodeInUrl] of [?h] as a
    search. *)
Theorem hasCodeInUrl_fragment_as_query (s h : string) :
  hasCodeInUrl {| search := s; hash := "#" +:+ h |} =
  hasCodeInUrl {| search := s; hash := "" |}
  || hasCodeInUrl {| search := "?" +:+ h; hash := "" |}.
Proof.
  rewrite !hasCodeInUrl_orb, hashParams_hash, searchParams_question.
  change (hashParams {| search := s; hash := "" |})
    with (@nil (string * string)).
  change (hashParams {| search := "?" +:+ h; hash := "" |})
    with (@nil (string * string)).
  change (searchParams {| search := s; hash := "#" +:+ h |})
    with (searchParams {| search := s; hash := "" |}).
  simpl URLSearchParams.get. simpl Js.truthy.
  rewrite !orb_false_r, !orb_assoc. reflexivity.
Qed.

Lemma occurs_split_head sep p tail :
  occurs sep p = false ->
  tail = "" \/ (exists r, tail = String sep r) ->
  exists others,
    URLSearchParams.split_on sep (p +:+ tail) = p :: others.
Proof.
  intros Hp Htail. induction p as [| c p IH]; simpl.
  - destruct Htail as [-> | (r & ->)]; simpl.
    + now exists [].
    + rewrite Ascii.eqb_refl. eauto.
  - simpl in Hp. apply orb_false_elim in Hp. destruct Hp as [Hc Hp].
    rewrite Hc. destruct (IH Hp) as (others & ->). eauto.
Qed.

Lemma decode_nonempty v : v <> "" -> URLSearchParams.decode v <> "".
Proof.
  unfold URLSearchParams.decode.
  destruct v as [| c v]; [congruence |]. intros _. simpl.
  destruct (Ascii.eqb (if Ascii.eqb c "+" then " "%char else c) "%");
    [| discriminate].
  destruct (URLSearchParams.plus_to_space v) as [| x [| y r]];
    try discriminate.
  destruct (URLSearchParams.hex_value x), (URLSearchParams.hex_value y);
    discriminate.
Qed.

Lemma occurs_append c a b : occurs c (a +:+ b) = occurs c a || occurs c b.
Proof.
  induction a as [| x a IH]; simpl; [reflexivity |].
  now rewrite IH, orb_assoc.
Qed.

(** X16: a query string that begins with one of the three parameters
    and a non-empty value for it, up to the end or to the next [&], is
    always recognised, whatever follows and whatever the fragment. *)
Theorem hasCodeInUrl_leading_parameter (name v rest h : string) :
  In name relevant_parameters ->
  v <> "" ->
  occurs "&" v = false ->
  rest = "" \/ (exists r, rest = "&" +:+ r) ->
  hasCodeInUrl
    {| search := "?" +:+ (name +:+ "=" +:+ v) +:+ rest; hash := h |} = true.
Proof.
  intros Hname Hv Hamp Hrest.
  apply hasCodeInUrl_first. exists name. split; [exact Hname |]. left.
  rewrite searchParams_question. unfold URLSearchParams.parse.
  assert (Hpiece : occurs "&" (name +:+ "=" +:+ v) = false).
  { rewrite occurs_append. simpl in Hname.
    destruct Hname as [<- | [<- | [<- | []]]]; simpl; exact Hamp. }
  destruct (occurs_split_head "&" (name +:+ "=" +:+ v) rest Hpiece Hrest)
    as (others & ->).
  cbn [flat_map].
  assert (Hseq : URLSearchParams.parse_sequence (name +:+ "=" +:+ v)
                 = [(name, URLSearchParams.decode v)]).
  { simpl in Hname. destruct Hname as [<- | [<- | [<- | []]]]; reflexivity. }
  rewrite Hseq. exists [], (URLSearchParams.decode v). eexists.
  split; [reflexivity |]. split; [intros p0 [] |].
  now apply decode_nonempty.
Qed.

Lemma hasCodeInUrl_leading_parameter_witness :
  hasCodeInUrl
    {| search := "?code=SplxlOBeZQQYbYS6WxSbIA&state=af0ifjsldkj";
       hash := "#top" |} = true.
Proof.
  apply (hasCodeInUrl_leading_parameter "code" "SplxlOBeZQQYbYS6WxSbIA"
           "&state=af0ifjsldkj" "#top").
  - now left.
  - discriminate.
  - reflexivity.
  - right. now exists "state=af0ifjsldkj".
Defined.

Lemma get_absent name (ps : URLSearchParams.t) :
  (forall p, In p ps -> fst p <> name) -> URLSearchParams.get name ps = None.
Proof.
  induction ps as [| [n v] ps IH]; intros H; simpl; [reflexivity |].
  destruct (String.eqb_spec n name) as [-> | _].
  - now destruct (H (name, v) (or_introl eq_refl)).
  - apply IH. intros p Hp. apply H. now right.
Qed.

(** X17: a location none of whose parameters is [code], [id_token] or
    [session_state], such as the error response of an identity
    provider, is no return: the effect asks [getUser], and with no user
    and [autoSignIn] on it calls [onBeforeSignIn] and starts a new
    redirect. *)
Theorem unrelated_parameters_restart_signin
    props window_location (env : Env) (st : State) (log : list Step) :
  let loc := location props window_location in
  (forall p, In p (searchParams loc ++ hashParams loc) ->
             ~ In (fst p) relevant_parameters) ->
  hasCodeInUrl loc = false /\
  (respond env log (GetUser (userManager props)) = inr None ->
   autoSignIn props = true ->
   (forall f, AuthProviderProps.onBeforeSignIn props = Some f ->
      respond env (log ++ [Called (GetUser (userManager props))]) (Invoke f)
      = inr tt) ->
   history (run env (getUser props window_location) st log) =
     log ++ [Called (GetUser (userManager props))]
         ++ invoked (AuthProviderProps.onBeforeSignIn props)
         ++ [Called (SigninRedirect (userManager props) None)]).
Proof.
  cbv zeta. intros Hother.
  assert (Hfalse : hasCodeInUrl (location props window_location) = false).
  { rewrite hasCodeInUrl_orb.
    assert (Hs : forall name, In name relevant_parameters ->
                 URLSearchParams.get name
                   (searchParams (location props window_location)) = None).
    { intros name Hname. apply get_absent. intros q Hq Heq.
      apply (Hother q); [apply in_or_app; now left | now rewrite Heq]. }
    assert (Hh : forall name, In name relevant_parameters ->
                 URLSearchParams.get name
                   (hashParams (location props window_location)) = None).
    { intros name Hname. apply get_absent. intros q Hq Heq.
      apply (Hother q); [apply in_or_app; now right | now rewrite Heq]. }
    rewrite !Hs, !Hh by (simpl; auto). reflexivity. }
  split; [exact Hfalse |].
  intros Huser Hauto Hcb.
  rewrite (run_getUser_asked props window_location env st log None
             Hfalse Huser), Hauto.
  simpl andb. cbv iota.
  destruct (AuthProviderProps.onBeforeSignIn props) as [f |]; run_cbn.
  - rewrite (Hcb f eq_refl). run_cbn. rewrite <- !app_assoc. reflexivity.
  - rewrite <- !app_assoc. reflexivity.
Qed.

Lemma unrelated_parameters_restart_signin_witness :
  hasCodeInUrl Sample.denied = false /\
  history (run (Sample.env None) (getUser Sample.props Sample.denied)
             None [])
  = [Called (GetUser (userManager Sample.props));
     Called (Invoke Sample.onBeforeSignIn);
     Called (SigninRedirect (userManager Sample.props) None)].
Proof.
  destruct (unrelated_parameters_restart_signin Sample.props Sample.denied
              (Sample.env None) None []) as [Hfalse Hredirect].
  - vm_compute. intros p [<- | [<- | []]]; simpl; intuition discriminate.
  - split; [exact Hfalse |]. apply Hredirect; vm_compute; reflexivity.
Defined.

(** X18: of the three actions of the context value, [login] never sets
    [userData], and [logout] and [signOutRedirect] set it to nothing but
    [null]. *)
Theorem actions_only_clear
    props (env : Env) (st : State) (args : option Args) u :
  ~ In (Set_userData u) (history (run env (login props args) st [])) /\
  (In (Set_userData u) (history (run env (logout props) st [])) ->
   u = None) /\
  (In (Set_userData u)
      (history (run env (signOutRedirect props args) st [])) ->
   u = None).
Proof.
  unfold login, logout, signOutRedirect, signOutHooks.
  split; [| split]; run_cbn.
  - destruct (respond env [] (SigninRedirect (userManager props) args))
      as [e | []]; run_cbn; simpl; intuition discriminate.
  - destruct (respond env [] (RemoveUser (userManager props)))
      as [e | []]; run_cbn.
    + simpl. intuition discriminate.
    + destruct (AuthProviderProps.onSignOut props) as [f |]; run_cbn;
        [destruct (respond env _ (Invoke f)) as [e | []]; run_cbn |];
        simpl; intros [[=] | [[= <-] | H]]; try reflexivity;
        try (destruct H as [[=] | []]); try destruct H.
  - destruct (respond env [] (SignoutRedirect (userManager props) args))
      as [e | []]; run_cbn.
    + simpl. intuition discriminate.
    + destruct (AuthProviderProps.onSignOut props) as [f |]; run_cbn;
        [destruct (respond env _ (Invoke f)) as [e | []]; run_cbn |];
        simpl; intros [[=] | [[= <-] | H]]; try reflexivity;
        try (destruct H as [[=] | []]); try destruct H.
Qed.

Lemma actions_only_clear_witness :
  In (Set_userData None)
     (history (run (Sample.env None) (logout Sample.props)
                 (Some Sample.alice) [])) /\
  @None User = None.
Proof.
  split; [vm_compute; auto |].
  apply (actions_only_clear Sample.props (Sample.env None)
           (Some Sample.alice) None None).
  vm_compute. auto.
Defined.
